(** * Deo Web3 example client: a shallow embedding of
      [examples/api/web3_examples.py]

    The Python module consists of a JSON-RPC client class ([DeoWeb3Client]),
    sixteen convenience wrappers around its one request helper, and three
    conversion helpers ([hex_to_int], [int_to_hex], [wei_to_ether]).

    Conventions of the embedding:
    - a Python [str] is a [string] whose characters are code points below 256;
    - a Python [int] is a [Z] (unbounded);
    - a Python [float] is a binary64 value of [SpecFloat.spec_float];
    - a Python value that can travel in a JSON document is a [pyval];
    - a call that may raise returns an [outcome];
    - [self.request_id] is threaded explicitly through every method. *)

From Stdlib Require Import ZArith Ascii String List Bool Lia.
From Stdlib Require Import Floats.SpecFloat.
From stdpp Require Import base option strings gmap.

Local Open Scope string_scope.
Local Open Scope Z_scope.

(** ** Python values *)

Module Py.

#[local] Set Warnings "-register-all".

(** JSON-shaped Python values: [None], [bool], [int], [float], [str], [list]
    and [dict] with string keys. *)
Inductive pyval : Type :=
| PyNone
| PyBool (b : bool)
| PyInt (z : Z)
| PyFloat (f : spec_float)
| PyStr (s : string)
| PyList (l : list pyval)
| PyDict (d : gmap string pyval).

(** The builtin exceptions that the module can meet. *)
Inductive builtin_exception : Type :=
| ValueError
| AttributeError
| TypeError
| OverflowError
| ZeroDivisionError
| KeyboardInterrupt.

(** Subclasses of [requests.exceptions.RequestException]. *)
Inductive request_exception : Type :=
| ConnectionError
| Timeout
| HTTPError
| InvalidJSONError
| OtherRequestException.

(** A raised exception.  An exception of the [requests] hierarchy carries
    [str(e)], which [_make_request] interpolates into its error string; the
    messages of builtin exceptions are not modelled. *)
Inductive exn : Type :=
| RequestException (sub : request_exception) (str_e : string)
| Builtin (b : builtin_exception).

(** [isinstance(e, requests.exceptions.RequestException)] together with
    [str(e)] when it holds. *)
Definition as_RequestException (e : exn) : option string :=
  match e with
  | RequestException _ msg => Some msg
  | Builtin _ => None
  end.

(** The result of running a Python expression: a value or a raised
    exception. *)
Inductive outcome (A : Type) : Type :=
| Returned (a : A)
| Raised (e : exn).
Arguments Returned {A} a.
Arguments Raised {A} e.

Definition bind {A B} (m : outcome A) (k : A -> outcome B) : outcome B :=
  match m with
  | Returned a => k a
  | Raised e => Raised e
  end.

(** [try: body  except requests.exceptions.RequestException as e: handler] *)
Definition try_except_RequestException {A}
    (body : outcome A) (handler : string -> outcome A) : outcome A :=
  match body with
  | Returned a => Returned a
  | Raised e =>
      match as_RequestException e with
      | Some msg => handler msg
      | None => Raised e
      end
  end.

(** [obj.get(key)] as the wrappers use it: a [dict] answers with the stored
    value or [None]; no other JSON-shaped value has an attribute [get]. *)
Definition get (obj : pyval) (key : string) : outcome pyval :=
  match obj with
  | PyDict d => Returned (default PyNone (d !! key))
  | _ => Raised (Builtin AttributeError)
  end.

End Py.

Export Py.

Declare Scope py_scope.
Delimit Scope py_scope with py.
Notation "x <- m ;; k" := (bind m (fun x => k))
  (at level 100, m at next level, right associativity) : py_scope.

Local Open Scope py_scope.

(** ** The [requests] library, seen from the client

    [requests.post] is the environment of the program.  One call either
    raises, or returns a response object on which the client then calls
    [raise_for_status()] and [json()]. *)

Module Requests.

(** The keyword arguments of [requests.post(url, json=..., headers=...,
    timeout=...)] where [json] is the request envelope. *)
Record envelope : Type := Envelope {
  jsonrpc : string;
  method : string;
  params : list pyval;
  id : Z
}.

Record post_call : Type := PostCall {
  url : string;
  json : envelope;
  headers : list (string * string);
  timeout : Z
}.

(** A response object: [raise_for_status()] raises [HTTPError] with the
    given text when the status is an error status and returns otherwise;
    [json()] returns the decoded body or raises. *)
Record response : Type := Response {
  status_error : option string;
  decoded_body : outcome pyval
}.

Definition raise_for_status (r : response) : outcome unit :=
  match status_error r with
  | Some msg => Raised (RequestException HTTPError msg)
  | None => Returned tt
  end.

Definition response_json (r : response) : outcome pyval := decoded_body r.

(** A response as it comes off the wire, with its status code.  For
    [raise_for_status()] the error statuses are the codes 400 to 599 (client
    and server errors) and no others; [error_text] is the message the
    library composes for such a status, and [body_json] what [json()] makes
    of the body. *)
Record http_response : Type := HttpResponse {
  status_code : Z;
  error_text : string;
  body_json : outcome pyval
}.

Definition is_error_status (code : Z) : bool :=
  (400 <=? code) && (code <? 600).

(** The response object that [requests.post] returns for it. *)
Definition received (h : http_response) : response :=
  {| status_error :=
       if is_error_status (status_code h) then Some (error_text h) else None;
     decoded_body := body_json h |}.

(** What the network does to one [requests.post] call: the call raises, or
    it returns a response. *)
Definition post_result : Type := outcome response.

End Requests.

Export Requests.

(** ** class DeoWeb3Client *)

Record DeoWeb3Client : Type := Client {
  rpc_url : string;
  request_id : Z
}.

(** [DeoWeb3Client.__init__]; [None] stands for the omitted argument. *)
Definition __init__ (rpc_url : option string) : DeoWeb3Client :=
  {| rpc_url := default "http://localhost:8545" rpc_url;
     request_id := 1 |}.

(** The effect of one method call on a client: the client afterwards, the
    [requests.post] call that was issued, and the value returned or the
    exception raised. *)
Record effect : Type := Effect {
  self_after : DeoWeb3Client;
  posted : post_call;
  result : outcome pyval
}.

(** [DeoWeb3Client._make_request].  [params = None] is the omitted
    argument; [net] is what [requests.post] does with this call. *)
Definition _make_request (self : DeoWeb3Client) (method : string)
    (params : option (list pyval)) (net : post_result) : effect :=
  let params := match params with None => [] | Some l => l end in
  let payload :=
    {| jsonrpc := "2.0";
       Requests.method := method;
       Requests.params := params;
       id := request_id self |} in
  let self := {| rpc_url := rpc_url self;
                 request_id := request_id self + 1 |} in  (* += 1 *)
  let call :=
    {| url := rpc_url self;
       json := payload;
       headers := [("Content-Type", "application/json")];
       timeout := 30 |} in
  {| self_after := self;
     posted := call;
     result :=
       try_except_RequestException
         (response <- net ;;
          _ <- raise_for_status response ;;
          response_json response)
         (fun e =>
            Returned (PyDict {[ "error" := PyStr ("Request failed: " +:+ e) ]}))
  |}.

(** The tail shared by all wrappers: [return result.get("result")]. *)
Definition returning_result (e : effect) : effect :=
  {| self_after := self_after e;
     posted := posted e;
     result := (r <- result e ;; get r "result") |}.

Section Wrappers.
Variable self : DeoWeb3Client.
Variable net : post_result.

(** An optional keyword argument and its default. *)
Definition latest (block_tag : option pyval) : pyval :=
  default (PyStr "latest") block_tag.
Definition no_transactions (include_transactions : option pyval) : pyval :=
  default (PyBool false) include_transactions.

Definition get_block_number : effect :=
  returning_result (_make_request self "eth_blockNumber" None net).

Definition get_balance (address : pyval) (block_tag : option pyval) : effect :=
  let block_tag := latest block_tag in
  returning_result
    (_make_request self "eth_getBalance" (Some [address; block_tag]) net).

Definition get_block_by_number (block_number : pyval)
    (include_transactions : option pyval) : effect :=
  let include_transactions := no_transactions include_transactions in
  returning_result
    (_make_request self "eth_getBlockByNumber"
       (Some [block_number; include_transactions]) net).

Definition get_block_by_hash (block_hash : pyval)
    (include_transactions : option pyval) : effect :=
  let include_transactions := no_transactions include_transactions in
  returning_result
    (_make_request self "eth_getBlockByHash"
       (Some [block_hash; include_transactions]) net).

Definition get_transaction_by_hash (tx_hash : pyval) : effect :=
  returning_result
    (_make_request self "eth_getTransactionByHash" (Some [tx_hash]) net).

Definition get_transaction_receipt (tx_hash : pyval) : effect :=
  returning_result
    (_make_request self "eth_getTransactionReceipt" (Some [tx_hash]) net).

Definition call_contract (call_object : pyval) (block_tag : option pyval)
    : effect :=
  let block_tag := latest block_tag in
  returning_result
    (_make_request self "eth_call" (Some [call_object; block_tag]) net).

Definition send_raw_transaction (raw_tx : pyval) : effect :=
  returning_result
    (_make_request self "eth_sendRawTransaction" (Some [raw_tx]) net).

Definition estimate_gas (call_object : pyval) : effect :=
  returning_result
    (_make_request self "eth_estimateGas" (Some [call_object]) net).

Definition get_gas_price : effect :=
  returning_result (_make_request self "eth_gasPrice" None net).

Definition get_code (address : pyval) (block_tag : option pyval) : effect :=
  let block_tag := latest block_tag in
  returning_result
    (_make_request self "eth_getCode" (Some [address; block_tag]) net).

Definition get_storage_at (address position : pyval)
    (block_tag : option pyval) : effect :=
  let block_tag := latest block_tag in
  returning_result
    (_make_request self "eth_getStorageAt"
       (Some [address; position; block_tag]) net).

Definition get_network_version : effect :=
  returning_result (_make_request self "net_version" None net).

Definition is_listening : effect :=
  returning_result (_make_request self "net_listening" None net).

Definition get_peer_count : effect :=
  returning_result (_make_request self "net_peerCount" None net).

Definition get_client_version : effect :=
  returning_result (_make_request self "web3_clientVersion" None net).
End Wrappers.

(** ** The builtins [int(str, base)], [hex(int)] and [int / int] *)

Module Builtins.

Definition ord (c : ascii) : Z := Z.of_N (N_of_ascii c).
Definition chr (z : Z) : ascii := ascii_of_N (Z.to_N z).

(** Value of a character as a digit: ['0'..'9'] are 0..9, letters of either
    case are 10..35, every other character is 37 (no digit in any base). *)
Definition digit_value (c : ascii) : Z :=
  let n := ord c in
  if (48 <=? n) && (n <=? 57) then n - 48
  else if (97 <=? n) && (n <=? 122) then n - 87
  else if (65 <=? n) && (n <=? 90) then n - 55
  else 37.

(** Characters that [int] skips around a literal: tab, line feed, vertical
    tab, form feed, carriage return, space, and below 256 also U+0085 and
    U+00A0. *)
Definition is_space (c : ascii) : bool :=
  let n := ord c in
  ((9 <=? n) && (n <=? 13)) || (n =? 32) || (n =? 133) || (n =? 160).

Fixpoint skip_spaces (s : string) : string :=
  match s with
  | String c r => if is_space c then skip_spaces r else s
  | EmptyString => s
  end.

(** An optional sign; [true] is a minus. *)
Definition strip_sign (s : string) : bool * string :=
  match s with
  | String c r =>
      if Ascii.eqb c "+" then (false, r)
      else if Ascii.eqb c "-" then (true, r)
      else (false, s)
  | EmptyString => (false, s)
  end.

(** The base prefix ([0x], [0o], [0b], either case) that matches the base,
    and one underscore after it. *)
Definition strip_prefix (base : Z) (s : string) : string :=
  match s with
  | String c0 (String c1 r) =>
      if Ascii.eqb c0 "0" &&
         (((base =? 16) && (Ascii.eqb c1 "x" || Ascii.eqb c1 "X")) ||
          ((base =? 8) && (Ascii.eqb c1 "o" || Ascii.eqb c1 "O")) ||
          ((base =? 2) && (Ascii.eqb c1 "b" || Ascii.eqb c1 "B")))
      then match r with
           | String c2 r' => if Ascii.eqb c2 "_" then r' else r
           | EmptyString => r
           end
      else s
  | _ => s
  end.

(** The digit loop: consumes digits of the base and single underscores
    between them.  [prev_us] tells whether the previous character was an
    underscore, [acc] is the value so far, [n] counts the digits.  The loop
    fails on a doubled or a trailing underscore; otherwise it gives the
    value, the number of digits and the unread rest. *)
Fixpoint scan_digits (base : Z) (s : string) (prev_us : bool) (acc : Z)
    (n : nat) : option (Z * nat * string) :=
  match s with
  | String c r =>
      if Ascii.eqb c "_" then
        if prev_us then None else scan_digits base r true acc n
      else if digit_value c <? base then
        scan_digits base r false (acc * base + digit_value c) (S n)
      else if prev_us then None else Some (acc, n, s)
  | EmptyString => if prev_us then None else Some (acc, n, s)
  end.

Section IntFromString.
(** [sys.get_int_max_str_digits()]: 0 switches the limit off.  The limit
    applies to bases that are not powers of two, and only to literals of
    more than 640 digits. *)
Variable int_max_str_digits : nat.

Definition too_many_digits (base : Z) (n : nat) : bool :=
  negb (Z.land base (base - 1) =? 0) &&
  (640 <? n)%nat && (0 <? int_max_str_digits)%nat &&
  (int_max_str_digits <? n)%nat.

(** [int(s, base)] for a string [s] and an explicit base in 2..36. *)
Definition int_of_str (s : string) (base : Z) : outcome Z :=
  let s := skip_spaces s in
  let '(negative, s) := strip_sign s in
  let s := strip_prefix base s in
  match s with
  | String c _ =>
      if Ascii.eqb c "_" then Raised (Builtin ValueError)
      else
        match scan_digits base s false 0 0 with
        | None => Raised (Builtin ValueError)
        | Some (z, n, rest) =>
            if (n =? 0)%nat then Raised (Builtin ValueError)
            else if too_many_digits base n then Raised (Builtin ValueError)
            else
              match skip_spaces rest with
              | EmptyString => Returned (if negative then - z else z)
              | String _ _ => Raised (Builtin ValueError)
              end
        end
  | EmptyString => Raised (Builtin ValueError)
  end.
End IntFromString.

(** The lowercase digit character of a value in 0..15. *)
Definition hex_digit (d : Z) : ascii :=
  chr (if d <? 10 then 48 + d else 87 + d).

(** The digit loop of [hex]: emits the lowest digit in front of [acc] and
    goes on with the quotient while it is not zero. *)
Fixpoint hex_digits (fuel : nat) (n : Z) (acc : string) : string :=
  match fuel with
  | O => acc
  | S fuel =>
      let acc := String (hex_digit (n mod 16)) acc in
      if n / 16 =? 0 then acc else hex_digits fuel (n / 16) acc
  end.

(** [hex(value)] for an [int]: an optional minus, [0x], and the lowercase
    digits of the absolute value.  A number has at most [log2 n + 1] hex
    digits, which bounds the loop. *)
Definition hex (value : Z) : string :=
  let n := Z.abs value in
  let digits := hex_digits (S (Z.to_nat (Z.log2 n))) n "" in
  if value <? 0 then "-0x" +:+ digits else "0x" +:+ digits.

(** binary64 *)
Definition prec : Z := 53.
Definition emax : Z := 1024.

Definition float_of_int_exact (z : Z) : spec_float :=
  match z with
  | Z0 => S754_zero false
  | Zpos p => S754_finite false p 0
  | Zneg p => S754_finite true p 0
  end.

(** [a / b] on two [int]s: the quotient rounded once, to nearest even;
    a zero divisor and a quotient beyond the largest float raise. *)
Definition truediv (a b : Z) : outcome spec_float :=
  if b =? 0 then Raised (Builtin ZeroDivisionError)
  else
    match SFdiv prec emax (float_of_int_exact a) (float_of_int_exact b) with
    | S754_infinity _ => Raised (Builtin OverflowError)
    | q => Returned q
    end.

(** [s.startswith(p)] *)
Fixpoint startswith (s p : string) {struct p} : bool :=
  match p with
  | EmptyString => true
  | String a p' =>
      match s with
      | String b s' => Ascii.eqb a b && startswith s' p'
      | EmptyString => false
      end
  end.

End Builtins.

Export Builtins.

(** ** The conversion helpers of the module *)

Section Helpers.
Variable int_max_str_digits : nat.

Definition hex_to_int (hex_str : string) : outcome Z :=
  if startswith hex_str "0x" then int_of_str int_max_str_digits hex_str 16
  else int_of_str int_max_str_digits hex_str 10.

Definition int_to_hex (value : Z) : string := hex value.

Definition wei_to_ether (wei : string) : outcome spec_float :=
  n <- hex_to_int wei ;; truediv n (10 ^ 18).
End Helpers.

(** ** Vocabulary of the properties *)

(** The transport-level failures of one [requests.post] call, with the text
    of the exception: the connection is refused, the call times out, or the
    response carries an error status. *)
Inductive transport_failure : post_result -> string -> Prop :=
| connection_refused cause :
    transport_failure (Raised (RequestException ConnectionError cause)) cause
| timed_out cause :
    transport_failure (Raised (RequestException Timeout cause)) cause
| error_status cause body :
    transport_failure
      (Returned {| status_error := Some cause; decoded_body := body |}) cause.

(** The success range of HTTP status codes. *)
Definition is_success_status (code : Z) : bool :=
  (200 <=? code) && (code <? 300).

(** The failures of one [requests.post] call that the library reports by
    raising: the connection is refused, the call times out, or the response
    has a status code from 400 to 599. *)
Inductive reported_failure : post_result -> string -> Prop :=
| refused cause :
    reported_failure (Raised (RequestException ConnectionError cause)) cause
| timeout_elapsed cause :
    reported_failure (Raised (RequestException Timeout cause)) cause
| client_or_server_error h :
    is_error_status (status_code h) = true ->
    reported_failure (Returned (received h)) (error_text h).

(** A final answer [300 Multiple Choices] with a JSON body. *)
Definition multiple_choices : http_response :=
  {| status_code := 300;
     error_text := "";
     body_json := Returned (PyDict {[ "result" := PyStr "0x1" ]}) |}.

(** A [404 Not Found] answer. *)
Definition not_found : http_response :=
  {| status_code := 404;
     error_text := "404 Client Error: Not Found for url: http://localhost:8545/";
     body_json := Raised (RequestException InvalidJSONError "Expecting value") |}.

(** A transport-level success whose body decodes to [body]. *)
Definition http_ok (body : pyval) : post_result :=
  Returned {| status_error := None; decoded_body := Returned body |}.

(** One call of [_make_request] in a sequence of calls on one client, with
    what the network does to it. *)
Record request : Type := Request {
  req_method : string;
  req_params : option (list pyval);
  req_net : post_result
}.

(** Running a sequence of [_make_request] calls on one client.  A caller
    that goes on after a call raised goes on with the same object, so the
    client after one call is the client before the next in every case. *)
Fixpoint make_requests (self : DeoWeb3Client) (calls : list request)
    : list effect :=
  match calls with
  | [] => []
  | c :: calls =>
      let e := _make_request self (req_method c) (req_params c) (req_net c) in
      e :: make_requests (self_after e) calls
  end.

Definition sent_id (e : effect) : Z := id (json (posted e)).

(** The convenience wrappers as one type: a wrapper with its arguments,
    [None] for an omitted optional argument. *)
Inductive wrapper : Type :=
| GetBlockNumber
| GetBalance (address : pyval) (block_tag : option pyval)
| GetBlockByNumber (block_number : pyval) (include_transactions : option pyval)
| GetBlockByHash (block_hash : pyval) (include_transactions : option pyval)
| GetTransactionByHash (tx_hash : pyval)
| GetTransactionReceipt (tx_hash : pyval)
| CallContract (call_object : pyval) (block_tag : option pyval)
| SendRawTransaction (raw_tx : pyval)
| EstimateGas (call_object : pyval)
| GetGasPrice
| GetCode (address : pyval) (block_tag : option pyval)
| GetStorageAt (address position : pyval) (block_tag : option pyval)
| GetNetworkVersion
| IsListening
| GetPeerCount
| GetClientVersion.

Definition invoke (w : wrapper) (self : DeoWeb3Client) (net : post_result)
    : effect :=
  match w with
  | GetBlockNumber => get_block_number self net
  | GetBalance a t => get_balance self net a t
  | GetBlockByNumber n i => get_block_by_number self net n i
  | GetBlockByHash h i => get_block_by_hash self net h i
  | GetTransactionByHash h => get_transaction_by_hash self net h
  | GetTransactionReceipt h => get_transaction_receipt self net h
  | CallContract c t => call_contract self net c t
  | SendRawTransaction r => send_raw_transaction self net r
  | EstimateGas c => estimate_gas self net c
  | GetGasPrice => get_gas_price self net
  | GetCode a t => get_code self net a t
  | GetStorageAt a p t => get_storage_at self net a p t
  | GetNetworkVersion => get_network_version self net
  | IsListening => is_listening self net
  | GetPeerCount => get_peer_count self net
  | GetClientVersion => get_client_version self net
  end.

(** The table of remote procedures as the interface description gives it:
    the method name of each wrapper ... *)
Definition table_method (w : wrapper) : string :=
  match w with
  | GetBlockNumber => "eth_blockNumber"
  | GetBalance _ _ => "eth_getBalance"
  | GetBlockByNumber _ _ => "eth_getBlockByNumber"
  | GetBlockByHash _ _ => "eth_getBlockByHash"
  | GetTransactionByHash _ => "eth_getTransactionByHash"
  | GetTransactionReceipt _ => "eth_getTransactionReceipt"
  | CallContract _ _ => "eth_call"
  | SendRawTransaction _ => "eth_sendRawTransaction"
  | EstimateGas _ => "eth_estimateGas"
  | GetGasPrice => "eth_gasPrice"
  | GetCode _ _ => "eth_getCode"
  | GetStorageAt _ _ _ => "eth_getStorageAt"
  | GetNetworkVersion => "net_version"
  | IsListening => "net_listening"
  | GetPeerCount => "net_peerCount"
  | GetClientVersion => "web3_clientVersion"
  end.

Definition table_blockTag (t : option pyval) : pyval :=
  match t with Some v => v | None => PyStr "latest" end.

Definition table_includeTransactions (i : option pyval) : pyval :=
  match i with Some v => v | None => PyBool false end.

(** ... and its positional parameters, in order. *)
Definition table_params (w : wrapper) : list pyval :=
  match w with
  | GetBlockNumber => []
  | GetBalance address t => [address; table_blockTag t]
  | GetBlockByNumber n i => [n; table_includeTransactions i]
  | GetBlockByHash h i => [h; table_includeTransactions i]
  | GetTransactionByHash h => [h]
  | GetTransactionReceipt h => [h]
  | CallContract c t => [c; table_blockTag t]
  | SendRawTransaction r => [r]
  | EstimateGas c => [c]
  | GetGasPrice => []
  | GetCode address t => [address; table_blockTag t]
  | GetStorageAt address position t => [address; position; table_blockTag t]
  | GetNetworkVersion => []
  | IsListening => []
  | GetPeerCount => []
  | GetClientVersion => []
  end.

(** A JSON-RPC error response of a node, decoded. *)
Definition method_not_found : gmap string pyval :=
  <[ "error" := PyDict (<[ "code" := PyInt (-32601) ]>
                          {[ "message" := PyStr "Method not found" ]}) ]>
    (<[ "jsonrpc" := PyStr "2.0" ]> {[ "id" := PyInt 1 ]}).

(** The decoded response [{"jsonrpc":"2.0","result":"0x4d2","id":1}]. *)
Definition block_number_response : gmap string pyval :=
  <[ "jsonrpc" := PyStr "2.0" ]>
    (<[ "result" := PyStr "0x4d2" ]> {[ "id" := PyInt 1 ]}).

Definition is_dict (v : pyval) : bool :=
  match v with PyDict _ => true | _ => false end.

(** Positional value of a string of digits in a base, most significant
    digit first. *)
Fixpoint numeral_from (base : Z) (acc : Z) (s : string) : Z :=
  match s with
  | String c r => numeral_from base (acc * base + digit_value c) r
  | EmptyString => acc
  end.

Definition numeral (base : Z) (s : string) : Z := numeral_from base 0 s.

(** All characters of [s] are digits of the base. *)
Fixpoint all_digits (base : Z) (s : string) : bool :=
  match s with
  | String c r => (digit_value c <? base) && all_digits base r
  | EmptyString => true
  end.

(** ['0'..'9'] and ['a'..'f']. *)
Definition is_lower_hex (c : ascii) : bool :=
  let n := ord c in
  ((48 <=? n) && (n <=? 57)) || ((97 <=? n) && (n <=? 102)).

Fixpoint all_lower_hex (s : string) : bool :=
  match s with
  | String c r => is_lower_hex c && all_lower_hex r
  | EmptyString => true
  end.

(** [float(z)] where it does not overflow: the integer rounded to
    binary64. *)
Definition float_of_int (z : Z) : spec_float :=
  binary_normalize prec emax z 0 false.

(** The float [1.0]. *)
Definition float_one : spec_float := float_of_int 1.

(** Running a sequence of wrapper calls on one client, each with what the
    network does to its request. *)
Fixpoint invoke_all (self : DeoWeb3Client)
    (calls : list (wrapper * post_result)) : list effect :=
  match calls with
  | [] => []
  | (w, net) :: calls =>
      let e := invoke w self net in
      e :: invoke_all (self_after e) calls
  end.

(** The fixed part of every [requests.post] call of a client. *)
Definition well_addressed (self : DeoWeb3Client) (e : effect) : Prop :=
  url (posted e) = rpc_url self
  /\ headers (posted e) = [("Content-Type", "application/json")]
  /\ timeout (posted e) = 30
  /\ jsonrpc (json (posted e)) = "2.0"
  /\ rpc_url (self_after e) = rpc_url self.

(** The strings that [int_to_hex] writes for non-negative numbers: [0x]
    and lowercase hexadecimal digits without a leading zero, [0x0] for
    zero. *)
Definition canonical_hex (s : string) : bool :=
  match s with
  | String a (String b (String c r)) =>
      Ascii.eqb a "0" && Ascii.eqb b "x" && all_lower_hex (String c r)
      && (negb (Ascii.eqb c "0") || (String.length r =? 0)%nat)
  | _ => false
  end.

(** Zero with a plus sign, or a positive finite float. *)
Definition is_nonneg_finite (f : spec_float) : bool :=
  match f with
  | S754_zero false | S754_finite false _ _ => true
  | _ => false
  end.

(** ** The demonstrations

    A demonstration builds its own client, calls wrappers and prints.  Its
    state is the client, the requests posted so far and the lines printed
    so far, oldest first.  A printed line is kept as the text of the
    f-string with its replacement fields left empty, together with the
    values that go into the fields. *)

Module Demo.

Inductive field : Type :=
| FVal (v : pyval)
| FInt (z : Z)
| FFloat (f : spec_float).

Record line : Type := Line {
  template : string;
  fields : list field
}.

Record world : Type := World {
  client : DeoWeb3Client;
  wire : list post_call;
  stdout : list line
}.

Definition prog (A : Type) : Type := world -> world * outcome A.

Definition ret {A} (a : A) : prog A := fun st => (st, Returned a).

Definition pbind {A B} (m : prog A) (k : A -> prog B) : prog B :=
  fun st =>
    match m st with
    | (st', Returned a) => k a st'
    | (st', Raised e) => (st', Raised e)
    end.

(** The value of an expression that may raise. *)
Definition eval {A} (o : outcome A) : prog A := fun st => (st, o).

(** What the terminal side of [print] does with a value that goes into a
    replacement field.  Formatting the value into the f-string may raise
    ([ValueError] for an [int] with more decimal digits than the
    interpreter converts), and writing its text may raise
    ([UnicodeEncodeError] when the encoding of [stdout] has no code for a
    character).  The literal text of a line raises neither. *)
Record terminal : Type := Terminal {
  format_error : field -> option exn;
  encode_error : field -> option exn
}.

(** A terminal that takes everything. *)
Definition plain : terminal :=
  {| format_error := fun _ => None; encode_error := fun _ => None |}.

(** The first field, in order, for which [f] reports an exception. *)
Fixpoint first_error (f : field -> option exn) (fields : list field)
    : option exn :=
  match fields with
  | [] => None
  | x :: rest =>
      match f x with
      | Some e => Some e
      | None => first_error f rest
      end
  end.

(** [print(f"...")]: the fields are formatted from left to right, then the
    line is written as a whole; when either step raises, nothing is
    printed. *)
Definition print (tty : terminal) (template : string) (fields : list field)
    : prog unit :=
  fun st =>
    match first_error (format_error tty) fields with
    | Some e => (st, Raised e)
    | None =>
        match first_error (encode_error tty) fields with
        | Some e => (st, Raised e)
        | None =>
            ({| client := client st;
                wire := wire st;
                stdout := stdout st ++ [Line template fields] |},
             Returned tt)
        end
    end.

(** The fields are formatted and written without an exception. *)
Definition printable (tty : terminal) (fields : list field) : bool :=
  match first_error (format_error tty) fields,
        first_error (encode_error tty) fields with
  | None, None => true
  | _, _ => false
  end.

(** [client = DeoWeb3Client()] *)
Definition new_client : prog unit :=
  fun st =>
    ({| client := __init__ None; wire := wire st; stdout := stdout st |},
     Returned tt).

(** [if cond: body] without [else] *)
Definition when (cond : bool) (body : prog unit) : prog unit :=
  if cond then body else ret tt.

(** [bool(v)] *)
Definition truthy (v : pyval) : bool :=
  match v with
  | PyNone => false
  | PyBool b => b
  | PyInt z => negb (z =? 0)
  | PyFloat (S754_zero _) => false
  | PyFloat _ => true
  | PyStr s => negb (String.length s =? 0)%nat
  | PyList l => negb (length l =? 0)%nat
  | PyDict d => negb (size d =? 0)%nat
  end.

(** [obj.get(key, default)] *)
Definition get_or (obj : pyval) (key : string) (dflt : pyval)
    : outcome pyval :=
  match obj with
  | PyDict d => Returned (default dflt (d !! key))
  | _ => Raised (Builtin AttributeError)
  end.

Definition nl : string := String "010" EmptyString.

Section Demonstrations.
(** The digit limit of the interpreter, the exception that subscripting a
    [dict] with a slice raises ([TypeError]; [KeyError] from Python 3.12
    on), the terminal, and the network: what [requests.post] does with the
    request that carries a given id. *)
Variable int_max_str_digits : nat.
Variable dict_slice_error : exn.
Variable tty : terminal.
Variable net : Z -> post_result.

Abbreviation print := (Demo.print tty).

(** A method call on [client]. *)
Definition call (f : DeoWeb3Client -> post_result -> effect) : prog pyval :=
  fun st =>
    let e := f (client st) (net (request_id (client st))) in
    ({| client := self_after e;
        wire := wire st ++ [posted e];
        stdout := stdout st |},
     result e).

(** [hex_to_int(v)] on whatever a wrapper returned: only a [str] has
    [startswith]. *)
Definition hex_to_int_of (v : pyval) : outcome Z :=
  match v with
  | PyStr s => hex_to_int int_max_str_digits s
  | _ => Raised (Builtin AttributeError)
  end.

Definition wei_to_ether_of (v : pyval) : outcome spec_float :=
  n <- hex_to_int_of v ;; truediv n (10 ^ 18).

(** [v[:50]] *)
Definition first_50 (v : pyval) : outcome pyval :=
  match v with
  | PyStr s => Returned (PyStr (substring 0 50 s))
  | PyList l => Returned (PyList (take 50 l))
  | PyDict _ => Raised dict_slice_error
  | _ => Raised (Builtin TypeError)
  end.

Declare Scope demo_scope.
Notation "x <- m ;; k" := (pbind m (fun x => k))
  (at level 100, m at next level, right associativity) : demo_scope.
Notation "m ;;; k" := (pbind m (fun _ => k))
  (at level 100, right associativity) : demo_scope.
Local Open Scope demo_scope.

Definition test_address : string :=
  "0x1234567890123456789012345678901234567890".
Definition code_address : string :=
  "0xabcdefabcdefabcdefabcdefabcdefabcdefabcd".

Definition demonstrate_basic_operations : prog unit :=
  print ("=== Deo Blockchain Web3 API Demonstration ===" +:+ nl) [] ;;;
  new_client ;;;
  print "1. Testing connection..." [] ;;;
  version <- call get_client_version ;;
  if truthy version then
    print "   Connected to: {}" [FVal version] ;;;
    print (nl +:+ "2. Network Information:") [] ;;;
    network_version <- call get_network_version ;;
    is_listening <- call is_listening ;;
    peer_count <- call get_peer_count ;;
    print "   Network Version: {}" [FVal network_version] ;;;
    print "   Node Listening: {}" [FVal is_listening] ;;;
    peers <- eval (if truthy peer_count then hex_to_int_of peer_count
                   else Returned 0) ;;
    print "   Peer Count: {}" [FInt peers] ;;;
    print (nl +:+ "3. Current Block Information:") [] ;;;
    block_number <- call get_block_number ;;
    (if truthy block_number then
       current_block <- eval (hex_to_int_of block_number) ;;
       print "   Current Block: {}" [FInt current_block] ;;;
       block_info <- call (fun self net =>
         get_block_by_number self net block_number (Some (PyBool false))) ;;
       when (truthy block_info)
         (hash <- eval (get_or block_info "hash" (PyStr "N/A")) ;;
          print "   Block Hash: {}" [FVal hash] ;;;
          parent <- eval (get_or block_info "parentHash" (PyStr "N/A")) ;;
          print "   Parent Hash: {}" [FVal parent] ;;;
          timestamp <- eval (t <- get_or block_info "timestamp" (PyStr "0x0") ;;
                             hex_to_int_of t)%py ;;
          print "   Timestamp: {}" [FInt timestamp])
     else
       print "   Failed to get block number" []) ;;;
    print (nl +:+ "4. Gas Information:") [] ;;;
    gas_price <- call get_gas_price ;;
    when (truthy gas_price)
      (gas_price_wei <- eval (hex_to_int_of gas_price) ;;
       gas_price_gwei <- eval (truediv gas_price_wei (10 ^ 9)) ;;
       print "   Gas Price: {} wei ({:.2f} gwei)"
         [FInt gas_price_wei; FFloat gas_price_gwei]) ;;;
    print (nl +:+ "5. Account Operations:") [] ;;;
    balance <- call (fun self net =>
      get_balance self net (PyStr test_address) None) ;;
    when (truthy balance)
      (balance_wei <- eval (hex_to_int_of balance) ;;
       balance_ether <- eval (wei_to_ether_of balance) ;;
       print "   Balance of {}: {} wei ({:.6f} ether)"
         [FVal (PyStr test_address); FInt balance_wei; FFloat balance_ether]) ;;;
    print (nl +:+ "6. Contract Operations:") [] ;;;
    code <- call (fun self net =>
      get_code self net (PyStr code_address) None) ;;
    (if truthy code then
       head <- eval (first_50 code) ;;
       print "   Contract code at {}: {}..." [FVal (PyStr code_address); FVal head]
     else
       print "   No contract code at {}" [FVal (PyStr code_address)]) ;;;
    storage_value <- call (fun self net =>
      get_storage_at self net (PyStr code_address) (PyStr "0x0") None) ;;
    when (truthy storage_value)
      (print "   Storage at position 0x0: {}" [FVal storage_value]) ;;;
    print (nl +:+ "=== Demonstration Complete ===") []
  else
    print "   Failed to connect to Deo node" [].

Definition call_object : pyval :=
  PyDict (<[ "to" := PyStr test_address ]> {[ "data" := PyStr "0x6d4ce63c" ]}).

Definition demonstrate_contract_interaction : prog unit :=
  print (nl +:+ "=== Contract Interaction Demonstration ===" +:+ nl) [] ;;;
  new_client ;;;
  print "1. Calling contract function..." [] ;;;
  result <- call (fun self net => call_contract self net call_object None) ;;
  (if truthy result then print "   Contract call result: {}" [FVal result]
   else print "   Contract call failed" []) ;;;
  print (nl +:+ "2. Estimating gas...") [] ;;;
  gas_estimate <- call (fun self net => estimate_gas self net call_object) ;;
  when (truthy gas_estimate)
    (gas_estimate_int <- eval (hex_to_int_of gas_estimate) ;;
     print "   Estimated gas: {}" [FInt gas_estimate_int]) ;;;
  print (nl +:+ "=== Contract Interaction Complete ===") [].
End Demonstrations.

(** The state before a demonstration starts: nothing posted, nothing
    printed. *)
Definition start : world :=
  {| client := __init__ None; wire := []; stdout := [] |}.

(** The script run as a program: the first demonstration, then the second,
    each against its own network behaviour. *)
Definition main (int_max_str_digits : nat) (dict_slice_error : exn)
    (tty : terminal) (net1 net2 : Z -> post_result) : prog unit :=
  pbind (demonstrate_basic_operations int_max_str_digits dict_slice_error tty
           net1)
    (fun _ => demonstrate_contract_interaction int_max_str_digits tty net2).

Definition is_str (v : pyval) : bool :=
  match v with PyStr _ => true | _ => false end.

Definition sent_method (c : post_call) : string := method (json c).
Definition sent_number (c : post_call) : Z := id (json c).

(** A node that refuses every connection. *)
Definition refusing : Z -> post_result :=
  fun _ => Raised (RequestException ConnectionError "Connection refused").

(** A node that answers the call with ["0x"] and the gas estimate with the
    number 21000. *)
Definition numeric_gas : Z -> post_result :=
  fun i =>
    if i =? 1 then http_ok (PyDict {[ "result" := PyStr "0x" ]})
    else http_ok (PyDict {[ "result" := PyInt 21000 ]}).

(** The remote procedures that only read from the node. *)
Definition read_only (m : string) : bool :=
  negb (String.eqb m "eth_sendRawTransaction").

Definition harmless (c : post_call) : Prop :=
  read_only (method (json c)) = true /\ url c = "http://localhost:8545".

(** The state of a demonstration whose client has posted everything that
    is on the wire: the requests are harmless and numbered from 1, and the
    client holds the next number. *)
Definition in_order (st : world) : Prop :=
  rpc_url (client st) = "http://localhost:8545"
  /\ request_id (client st) = 1 + Z.of_nat (length (wire st))
  /\ Forall harmless (wire st)
  /\ sent_number <$> wire st = seqZ 1 (Z.of_nat (length (wire st))).

(** A program that keeps the state in order and posts at most [n]
    requests. *)
Definition posts_at_most {A} (n : nat) (p : prog A) : Prop :=
  forall st, in_order st ->
    in_order (p st).1
    /\ (length (wire (p st).1) <= length (wire st) + n)%nat.

End Demo.

(** ** Vocabulary of rounding *)

(** Where a rational [p/d] lies with respect to the mantissa of a shift
    record: on it, below the middle of the next unit, on the middle, or
    above it.  This is what the round and sticky bits of the record
    stand for. *)
Definition located (mrs : shr_record) (p d : Z) : Prop :=
  let m := shr_m mrs in
  match shr_r mrs, shr_s mrs with
  | false, false => p = m * d
  | false, true => m * d < p /\ 2 * p < (2 * m + 1) * d
  | true, false => 2 * p = (2 * m + 1) * d
  | true, true => (2 * m + 1) * d < 2 * p /\ p < (m + 1) * d
  end.

(** The outcome [o] is the quotient [a/b] of a non-negative [a] and a
    positive [b], rounded to binary64.  A finite result [m * 2^e] is a
    valid binary64 number (53 significant bits, or fewer at the least
    exponent -1074) and differs from [a/b] by at most half a unit of its
    last place; [0.0] stands for a quotient of at most half the least
    positive float; [OverflowError] is raised only for a quotient that is
    at least the greatest float.  The inequalities are scaled by [2^1074]
    and by [b], so that they are between integers. *)
Definition rounded_quotient (a b : Z) (o : outcome spec_float) : Prop :=
  match o with
  | Returned (S754_zero false) => 2 * a * 2 ^ 1074 <= b
  | Returned (S754_finite false m e) =>
      SpecFloat.bounded prec emax m e = true
      /\ 2 * Z.abs (Z.pos m * 2 ^ (e + 1074) * b - a * 2 ^ 1074)
         <= 2 ^ (e + 1074) * b
  | Raised (Builtin OverflowError) => (2 ^ 53 - 1) * 2 ^ 971 * b <= a
  | _ => False
  end.

(** * Properties of the client *)

Section Client.
Implicit Types (self : DeoWeb3Client) (net : post_result).
Implicit Types (params : option (list pyval)) (w : wrapper).

(** *** The request helper *)

Lemma make_request_counter self method params net :
  request_id (self_after (_make_request self method params net))
  = request_id self + 1.
Proof. reflexivity. Qed.

Lemma make_request_sent_id self method params net :
  sent_id (_make_request self method params net) = request_id self.
Proof. reflexivity. Qed.

(** Whatever raises a [RequestException] inside the [try] block is turned
    into the local error object. *)
Lemma make_request_swallows self method params net :
  match result (_make_request self method params net) with
  | Raised e => as_RequestException e = None
  | Returned _ => True
  end.
Proof.
  destruct net as [r|[sub msg|b]]; cbn; trivial.
  destruct r as [[status|] [v|[sub msg|b]]]; cbn; trivial.
Qed.

(** On a transport-level failure of a call (connection refused, timeout,
    a response on which [raise_for_status()] raises) [_make_request] raises
    nothing and returns a dictionary whose only key is ["error"], bound to
    the string ["Request failed: "] followed by the text of the failure. *)
Lemma make_request_transport_failure self method params net cause :
  transport_failure net cause ->
  exists d : gmap string pyval,
    result (_make_request self method params net) = Returned (PyDict d)
    /\ dom d = {[ "error" ]}
    /\ d !! "error" = Some (PyStr ("Request failed: " +:+ cause)).
Proof.
  intros Hfail.
  exists {[ "error" := PyStr ("Request failed: " +:+ cause) ]}.
  split; [| split].
  - destruct Hfail; reflexivity.
  - apply dom_singleton_L.
  - apply lookup_singleton_eq.
Qed.

Lemma reported_failure_transport net cause :
  reported_failure net cause -> transport_failure net cause.
Proof.
  intros [c|c|h Hcode]; [apply connection_refused|apply timed_out|].
  unfold received. rewrite Hcode. apply error_status.
Qed.

(** A response whose status is no error status is handed to [json()], and
    what [json()] returns is returned, whatever the status code is. *)
Lemma make_request_other_status self method params h v :
  is_error_status (status_code h) = false -> body_json h = Returned v ->
  result (_make_request self method params (Returned (received h)))
  = Returned v.
Proof.
  intros Hcode Hbody. unfold _make_request, received. cbn.
  unfold raise_for_status, response_json. cbn. rewrite Hcode, Hbody.
  reflexivity.
Qed.

(** C1, as the code has it.  When a call fails in a way that [requests]
    reports by raising (the connection is refused, the call times out, or
    the response has a status code from 400 to 599), [_make_request]
    raises nothing and returns a dictionary whose only key is ["error"],
    bound to the string ["Request failed: "] followed by the text of the
    failure. *)
Theorem make_request_reports_failure self method params net cause :
  reported_failure net cause ->
  exists d : gmap string pyval,
    result (_make_request self method params net) = Returned (PyDict d)
    /\ dom d = {[ "error" ]}
    /\ d !! "error" = Some (PyStr ("Request failed: " +:+ cause)).
Proof.
  intros Hfail. apply make_request_transport_failure.
  apply reported_failure_transport, Hfail.
Qed.

Lemma make_request_reports_failure_witness :
  is_error_status (status_code not_found) = true
  /\ exists d : gmap string pyval,
       result (_make_request (__init__ None) "eth_blockNumber" None
                 (Returned (received not_found)))
       = Returned (PyDict d)
       /\ dom d = {[ "error" ]}
       /\ d !! "error"
          = Some (PyStr ("Request failed: " +:+ error_text not_found)).
Proof.
  split; [reflexivity|].
  apply (make_request_reports_failure (__init__ None) "eth_blockNumber" None
           (Returned (received not_found)) (error_text not_found)).
  apply (client_or_server_error not_found). reflexivity.
Defined.

(** C1 as stated fails on a status outside the success range that is no
    error status for the library: the answer [300] with a JSON body is
    returned as it is, without an ["error"] key. *)
Lemma make_request_status_300 :
  is_success_status (status_code multiple_choices) = false
  /\ result (_make_request (__init__ None) "eth_blockNumber" None
               (Returned (received multiple_choices)))
     = Returned (PyDict {[ "result" := PyStr "0x1" ]})
  /\ ({[ "result" := PyStr "0x1" ]} : gmap string pyval) !! "error" = None.
Proof. repeat split. Qed.

(** *** Sequences of calls *)

Lemma make_requests_ids self calls :
  sent_id <$> make_requests self calls
  = seqZ (request_id self) (Z.of_nat (length calls)).
Proof.
  revert self; induction calls as [|c calls IH]; intros self.
  - reflexivity.
  - cbn [make_requests length fmap list_fmap].
    change (list_fmap _ _ sent_id ?l) with (sent_id <$> l).
    rewrite IH, make_request_sent_id, make_request_counter.
    rewrite Nat2Z.inj_succ, (seqZ_cons (request_id self)) by lia.
    f_equal. f_equal; lia.
Qed.

(** C2.  On a new client the envelopes of N successive [_make_request]
    calls carry the ids 1, 2, ..., N in call order, whatever the network
    does to each call. *)
Theorem request_ids_count_from_one url calls :
  sent_id <$> make_requests (__init__ url) calls
  = seqZ 1 (Z.of_nat (length calls)).
Proof. apply make_requests_ids. Qed.

(** *** The wrappers *)

Lemma invoke_unfold w self net :
  invoke w self net
  = returning_result
      (_make_request self (table_method w) (Some (table_params w)) net).
Proof.
  destruct w as [|? t|? i|? i| | |? t| | | |? t|? ? t| | | |];
    try reflexivity; try (destruct t; reflexivity);
    destruct i; reflexivity.
Qed.
Lemma invoke_http_ok w self body :
  result (invoke w self (http_ok body)) = get body "result".
Proof. rewrite invoke_unfold. reflexivity. Qed.

(** C3.  When the node answers with a JSON object that has an ["error"]
    member and no ["result"] member, every wrapper returns [None]: the
    error detail is dropped. *)
Theorem wrapper_drops_protocol_error w self (d : gmap string pyval) detail :
  d !! "error" = Some detail ->
  d !! "result" = None ->
  result (invoke w self (http_ok (PyDict d))) = Returned PyNone.
Proof.
  intros _ Hres. rewrite invoke_http_ok. cbn. rewrite Hres. reflexivity.
Qed.

Lemma wrapper_drops_protocol_error_witness :
  result
    (invoke (GetBalance (PyStr "0x1234567890123456789012345678901234567890")
               None)
       (__init__ None) (http_ok (PyDict method_not_found)))
  = Returned PyNone.
Proof.
  apply (wrapper_drops_protocol_error _ _ method_not_found
           (PyDict (<[ "code" := PyInt (-32601) ]>
                      {[ "message" := PyStr "Method not found" ]})));
    vm_compute; reflexivity.
Defined.

(** C6.  Every wrapper issues exactly the request of the interface table:
    the envelope carries protocol version 2.0, the method name of the
    table, the caller's arguments in the table's order with ["latest"]
    and [False] for omitted optional arguments, and the current id; the
    wrapper does nothing else than return [.get("result")] of what
    [_make_request] returns for that method and parameter list.  A
    [_make_request] call without [params] sends the empty list. *)
Theorem wrapper_pass_through w self net :
  json (posted (invoke w self net))
  = {| jsonrpc := "2.0";
       method := table_method w;
       params := table_params w;
       id := request_id self |}
  /\ invoke w self net
     = returning_result
         (_make_request self (table_method w) (Some (table_params w)) net)
  /\ (forall m, params (json (posted (_make_request self m None net))) = [])
  /\ table_params (GetBalance (PyStr "a") None) = [PyStr "a"; PyStr "latest"]
  /\ table_params (GetBlockByNumber (PyStr "0x1") None)
     = [PyStr "0x1"; PyBool false].
Proof.
  rewrite invoke_unfold. repeat split.
Qed.

(** C10.  After a transport-level success, a wrapper raises exactly when
    the decoded body is not a JSON object, and what it raises then is
    [AttributeError]; [_make_request] itself hands the body back
    unchanged. *)
Theorem wrapper_raises_iff_not_object w self body :
  result (_make_request self (table_method w) (Some (table_params w))
            (http_ok body)) = Returned body
  /\ (is_dict body = false
      <-> result (invoke w self (http_ok body))
          = Raised (Builtin AttributeError))
  /\ (is_dict body = true
      <-> exists v, result (invoke w self (http_ok body)) = Returned v)
  /\ result (invoke w self (http_ok PyNone)) = Raised (Builtin AttributeError)
  /\ result (invoke w self (http_ok (PyList [])))
     = Raised (Builtin AttributeError).
Proof.
  rewrite !invoke_http_ok. split; [reflexivity|].
  destruct body; cbn; repeat split;
    try discriminate; try reflexivity; eauto;
    intros [v Hv]; discriminate.
Qed.
End Client.

(** * Properties of the conversion helpers *)

(** ** Characters *)

Ltac by_digit d :=
  let H := fresh "Hd" in
  assert (H : d = 0 \/ d = 1 \/ d = 2 \/ d = 3 \/ d = 4 \/ d = 5 \/ d = 6
              \/ d = 7 \/ d = 8 \/ d = 9 \/ d = 10 \/ d = 11 \/ d = 12
              \/ d = 13 \/ d = 14 \/ d = 15) by lia;
  repeat (destruct H as [->|H]; [reflexivity|]); rewrite H; reflexivity.

Lemma digit_value_hex_digit d : 0 <= d < 16 -> digit_value (hex_digit d) = d.
Proof. intros Hd. by_digit d. Qed.

Lemma hex_digit_not_underscore d :
  0 <= d < 16 -> Ascii.eqb (hex_digit d) "_" = false.
Proof. intros Hd. by_digit d. Qed.

Lemma hex_digit_lower d : 0 <= d < 16 -> is_lower_hex (hex_digit d) = true.
Proof. intros Hd. by_digit d. Qed.

Lemma digit_value_underscore : digit_value "_" = 37.
Proof. reflexivity. Qed.

Ltac by_ranges :=
  repeat match goal with
         | |- context [?a <=? ?b] => destruct (Z.leb_spec a b); cbn
         | |- context [?a <? ?b] => destruct (Z.ltb_spec a b); cbn
         | |- context [?a =? ?b] => destruct (Z.eqb_spec a b); cbn
         end;
  try reflexivity; try discriminate; try lia.

Lemma lower_hex_is_hex_digit c :
  is_lower_hex c = true -> (digit_value c <? 16) = true.
Proof.
  unfold is_lower_hex, digit_value. generalize (ord c). intros n. by_ranges.
Qed.

(** A digit of a base up to 36 is not the underscore. *)
Lemma digit_not_underscore base c :
  base <= 36 -> (digit_value c <? base) = true -> Ascii.eqb c "_" = false.
Proof.
  intros Hb Hc. destruct (Ascii.eqb_spec c "_") as [->|]; [|reflexivity].
  rewrite digit_value_underscore in Hc. apply Z.ltb_lt in Hc. lia.
Qed.

(** ** The digit loops *)

Lemma scan_digits_digit base c r acc n :
  base <= 36 -> (digit_value c <? base) = true ->
  scan_digits base (String c r) false acc n
  = scan_digits base r false (acc * base + digit_value c) (S n).
Proof.
  intros Hb Hc. cbn [scan_digits].
  rewrite (digit_not_underscore base c Hb Hc), Hc. reflexivity.
Qed.

(** On a string of digits the loop computes the positional value and reads
    everything. *)
Lemma scan_digits_all base s : forall acc n,
  base <= 36 -> all_digits base s = true ->
  scan_digits base s false acc n
  = Some (numeral_from base acc s, (n + String.length s)%nat, EmptyString).
Proof.
  induction s as [|c r IH]; intros acc n Hb Hall.
  - cbn. rewrite Nat.add_0_r. reflexivity.
  - cbn [all_digits] in Hall. apply andb_prop in Hall as [Hc Hr].
    rewrite scan_digits_digit, IH by assumption.
    cbn [numeral_from String.length]. rewrite Nat.add_succ_r. reflexivity.
Qed.

Lemma hex_digits_head fuel : forall n acc,
  exists d r, 0 <= d < 16 /\ hex_digits (S fuel) n acc = String (hex_digit d) r.
Proof.
  induction fuel as [|fuel IH]; intros n acc.
  - exists (n mod 16), acc. split; [apply Z.mod_pos_bound; lia|].
    cbn. destruct (n / 16 =? 0); reflexivity.
  - cbn [hex_digits]. destruct (n / 16 =? 0).
    + exists (n mod 16), acc. split; [apply Z.mod_pos_bound; lia|reflexivity].
    + apply IH.
Qed.

Lemma hex_digits_lower fuel : forall n acc,
  all_lower_hex acc = true -> all_lower_hex (hex_digits fuel n acc) = true.
Proof.
  induction fuel as [|fuel IH]; intros n acc Hacc; [exact Hacc|].
  assert (Hstep : all_lower_hex (String (hex_digit (n mod 16)) acc) = true).
  { cbn [all_lower_hex]. rewrite hex_digit_lower, Hacc; [reflexivity|].
    apply Z.mod_pos_bound; lia. }
  cbn [hex_digits]. destruct (n / 16 =? 0); [exact Hstep|]. apply IH, Hstep.
Qed.

(** Reading back what [hex_digits] has written in front of [acc]: the loop
    arrives at [acc] with the number itself as its value, having counted at
    least one digit. *)
Lemma scan_hex_digits fuel : forall n acc k,
  0 <= n < 16 ^ Z.of_nat fuel -> fuel <> O ->
  exists j,
    scan_digits 16 (hex_digits fuel n acc) false 0 k
    = scan_digits 16 acc false n (k + S j).
Proof.
  induction fuel as [|fuel IH]; intros n acc k Hn Hfuel; [congruence|].
  assert (Hd : 0 <= n mod 16 < 16) by (apply Z.mod_pos_bound; lia).
  assert (Hstep : forall a i,
    scan_digits 16 (String (hex_digit (n mod 16)) acc) false a i
    = scan_digits 16 acc false (a * 16 + n mod 16) (S i)).
  { intros a i. rewrite scan_digits_digit.
    - rewrite digit_value_hex_digit by exact Hd. reflexivity.
    - lia.
    - rewrite digit_value_hex_digit by exact Hd. apply Z.ltb_lt. lia. }
  cbn [hex_digits]. destruct (Z.eqb_spec (n / 16) 0) as [Hq|Hq].
  - exists O. rewrite Hstep. f_equal; [|lia].
    rewrite (Z.div_mod n 16) at 2 by lia. lia.
  - rewrite Nat2Z.inj_succ, Z.pow_succ_r in Hn by lia.
    assert (Hq' : 0 < n / 16 < 16 ^ Z.of_nat fuel).
    { split.
      - assert (0 <= n / 16) by (apply Z.div_pos; lia). lia.
      - apply Z.div_lt_upper_bound; lia. }
    destruct (IH (n / 16) (String (hex_digit (n mod 16)) acc) k) as [j Hj].
    + lia.
    + intros ->. cbn in Hq'. lia.
    + exists (S j). rewrite Hj, Hstep. f_equal; [|lia].
      rewrite (Z.div_mod n 16) at 3 by lia. lia.
Qed.

(** The fuel that [hex] gives its loop is enough. *)
Lemma hex_fuel_enough n :
  0 <= n -> n < 16 ^ Z.of_nat (S (Z.to_nat (Z.log2 n))).
Proof.
  intros Hn. rewrite Nat2Z.inj_succ, Z2Nat.id by apply Z.log2_nonneg.
  destruct (Z.eq_dec n 0) as [->|Hz]; [reflexivity|].
  destruct (Z.log2_spec n) as [_ Hlt]; [lia|].
  eapply Z.lt_le_trans; [exact Hlt|].
  apply Z.pow_le_mono_l. pose proof (Z.log2_nonneg n). lia.
Qed.

(** ** [int(s, base)] on plain numerals *)

Section Conversions.
Variable lim : nat.

(** A hexadecimal numeral after [0x]: the base prefix is skipped and the
    digits are read in base 16, however many there are. *)
Lemma int_of_str_0x body :
  body <> EmptyString -> all_digits 16 body = true ->
  int_of_str lim ("0x" +:+ body) 16 = Returned (numeral 16 body).
Proof.
  intros Hne Hall. destruct body as [|c r]; [congruence|].
  pose proof Hall as Hc. cbn [all_digits] in Hc.
  apply andb_prop in Hc as [Hc _].
  pose proof (digit_not_underscore 16 c ltac:(lia) Hc) as Hus.
  change ("0x" +:+ String c r) with (String "0" (String "x" (String c r))).
  unfold int_of_str.
  change (skip_spaces (String "0" (String "x" (String c r))))
    with (String "0" (String "x" (String c r))).
  cbn [strip_sign strip_prefix Ascii.eqb Bool.eqb Z.eqb Pos.eqb andb orb].
  rewrite Hus. cbv beta iota. rewrite Hus.
  rewrite scan_digits_all by (lia || assumption).
  reflexivity.
Qed.

(** A decimal numeral: read in base 10, unless it is longer than the
    interpreter's limit on digits. *)
Lemma int_of_str_decimal body :
  body <> EmptyString -> all_digits 10 body = true ->
  int_of_str lim body 10
  = if too_many_digits lim 10 (String.length body)
    then Raised (Builtin ValueError)
    else Returned (numeral 10 body).
Proof.
  intros Hne Hall. destruct body as [|c r]; [congruence|].
  pose proof Hall as Hc. cbn [all_digits] in Hc.
  apply andb_prop in Hc as [Hc _].
  pose proof (digit_not_underscore 10 c ltac:(lia) Hc) as Hus.
  assert (Hsp : is_space c = false).
  { revert Hc. unfold is_space, digit_value. generalize (ord c).
    intros n. by_ranges. }
  assert (Hplus : Ascii.eqb c "+" = false).
  { destruct (Ascii.eqb_spec c "+") as [->|]; [discriminate Hc|reflexivity]. }
  assert (Hminus : Ascii.eqb c "-" = false).
  { destruct (Ascii.eqb_spec c "-") as [->|]; [discriminate Hc|reflexivity]. }
  unfold int_of_str. cbn [skip_spaces]. rewrite Hsp.
  cbn [strip_sign]. rewrite Hplus, Hminus.
  assert (Hpre : strip_prefix 10 (String c r) = String c r).
  { destruct r; reflexivity || (cbn; rewrite andb_false_r; reflexivity). }
  rewrite Hpre, Hus, scan_digits_all by (lia || assumption).
  cbn [Nat.add String.length Nat.eqb].
  destruct (too_many_digits lim 10 (S (String.length r))); reflexivity.
Qed.

(** ** [hex_to_int] *)

Lemma decimal_not_0x body :
  all_digits 10 body = true -> startswith body "0x" = false.
Proof.
  intros Hall.
  destruct body as [|c0 [|c1 r]]; [reflexivity|apply andb_false_r|].
  cbn [all_digits] in Hall. apply andb_prop in Hall as [_ Hall].
  apply andb_prop in Hall as [Hc1 _]. cbn [startswith].
  destruct (Ascii.eqb_spec "x" c1) as [<-|]; [discriminate Hc1|].
  apply andb_false_r.
Qed.

(** C4.  [hex_to_int] is [int(s, 16)] on the strings that start with
    [0x] and [int(s)], base 10, on all others.  What parsing in a base
    means: [0x] followed by hexadecimal digits gives the positional value
    of the digits in base 16, and a string of decimal digits gives its
    positional value in base 10 (unless it is longer than the interpreter
    lets a decimal conversion be, which raises [ValueError]).
    [hex_to_int("0x10")] is 16 and [hex_to_int("10")] is 10. *)
Theorem hex_to_int_base (s h d : string) :
  h <> EmptyString -> all_digits 16 h = true ->
  d <> EmptyString -> all_digits 10 d = true ->
  hex_to_int lim s
  = int_of_str lim s (if startswith s "0x" then 16 else 10)
  /\ hex_to_int lim ("0x" +:+ h) = Returned (numeral 16 h)
  /\ hex_to_int lim d
     = (if too_many_digits lim 10 (String.length d)
        then Raised (Builtin ValueError)
        else Returned (numeral 10 d))
  /\ hex_to_int lim "0x10" = Returned 16
  /\ hex_to_int lim "10" = Returned 10.
Proof.
  intros Hh Hall_h Hd Hall_d. repeat split.
  - unfold hex_to_int. destruct (startswith s "0x"); reflexivity.
  - unfold hex_to_int.
    change (startswith ("0x" +:+ h) "0x") with true.
    apply (int_of_str_0x h Hh Hall_h).
  - unfold hex_to_int. rewrite (decimal_not_0x d Hall_d).
    apply int_of_str_decimal; assumption.
Qed.

(** On a [0x] numeral the result is its positional value in base 16. *)
Lemma hex_to_int_0x body :
  body <> EmptyString -> all_digits 16 body = true ->
  hex_to_int lim ("0x" +:+ body) = Returned (numeral 16 body).
Proof.
  intros Hne Hall. unfold hex_to_int.
  change (startswith ("0x" +:+ body) "0x") with true.
  apply (int_of_str_0x body Hne Hall).
Qed.

(** On a decimal numeral within the digit limit the result is its
    positional value in base 10. *)
Lemma hex_to_int_decimal body :
  body <> EmptyString -> all_digits 10 body = true ->
  too_many_digits lim 10 (String.length body) = false ->
  hex_to_int lim body = Returned (numeral 10 body).
Proof.
  intros Hne Hall Hlim. unfold hex_to_int.
  assert (Hpre : startswith body "0x" = false).
  { destruct body as [|c0 [|c1 r]]; [reflexivity|apply andb_false_r|].
    cbn [all_digits] in Hall. apply andb_prop in Hall as [_ Hall].
    apply andb_prop in Hall as [Hc1 _].
    cbn [startswith].
    destruct (Ascii.eqb_spec "x" c1) as [<-|]; [discriminate Hc1|].
    apply andb_false_r. }
  rewrite Hpre, int_of_str_decimal, Hlim by assumption. reflexivity.
Qed.
(** ** [int_to_hex] *)

Lemma all_lower_hex_digits s : all_lower_hex s = true -> all_digits 16 s = true.
Proof.
  induction s as [|c r IH]; [reflexivity|].
  cbn [all_lower_hex all_digits]. intros H.
  apply andb_prop in H as [Hc Hr].
  rewrite (lower_hex_is_hex_digit c Hc), (IH Hr). reflexivity.
Qed.

(** The shape of [hex(value)]: a minus sign for a negative number, [0x],
    and a non-empty string of lowercase hexadecimal digits whose
    positional value is the absolute value. *)
Lemma hex_shape value :
  exists digits,
    digits <> EmptyString
    /\ all_lower_hex digits = true
    /\ numeral 16 digits = Z.abs value
    /\ hex value = (if value <? 0 then "-0x" else "0x") +:+ digits.
Proof.
  set (n := Z.abs value). set (fuel := Z.to_nat (Z.log2 n)).
  exists (hex_digits (S fuel) n "").
  assert (Hn : 0 <= n) by apply Z.abs_nonneg.
  assert (Hlow : all_lower_hex (hex_digits (S fuel) n "") = true)
    by (apply hex_digits_lower; reflexivity).
  repeat split.
  - destruct (hex_digits_head fuel n "") as (d & r & _ & ->). discriminate.
  - exact Hlow.
  - destruct (scan_hex_digits (S fuel) n "" O) as [j Hj].
    + split; [exact Hn|apply hex_fuel_enough, Hn].
    + discriminate.
    + rewrite scan_digits_all in Hj
        by (lia || apply all_lower_hex_digits, Hlow).
      cbn [scan_digits] in Hj. injection Hj as Hv _. exact Hv.
  - unfold hex. fold n. fold fuel. destruct (value <? 0); reflexivity.
Qed.

(** C7, as the code has it.  For every integer, [int_to_hex] returns
    [0x] followed by at least one lowercase hexadecimal digit, the digits
    of the absolute value, and a negative number has a minus sign in front
    of the [0x]. *)
Theorem int_to_hex_shape value :
  exists digits,
    digits <> EmptyString
    /\ all_lower_hex digits = true
    /\ numeral 16 digits = Z.abs value
    /\ int_to_hex value = (if value <? 0 then "-0x" else "0x") +:+ digits.
Proof. apply hex_shape. Qed.

(** C5.  [hex_to_int(int_to_hex(x))] is [x] for every non-negative
    integer [x], and [int_to_hex(16)] is ["0x10"]. *)
Theorem hex_round_trip x :
  0 <= x ->
  hex_to_int lim (int_to_hex x) = Returned x /\ int_to_hex 16 = "0x10".
Proof.
  intros Hx. split; [|reflexivity].
  unfold int_to_hex.
  destruct (hex_shape x) as (digits & Hne & Hlow & Hval & ->).
  destruct (Z.ltb_spec x 0); [lia|].
  rewrite hex_to_int_0x by (assumption || apply all_lower_hex_digits, Hlow).
  rewrite Hval, Z.abs_eq by exact Hx. reflexivity.
Qed.

(** C9.  For every negative integer [x], [int_to_hex(x)] is [-0x...],
    which does not start with [0x], and [hex_to_int] of it raises
    [ValueError] out of its base-10 parse. *)
Theorem hex_round_trip_negative x :
  x < 0 ->
  hex_to_int lim (int_to_hex x) = Raised (Builtin ValueError)
  /\ int_of_str lim (int_to_hex x) 10 = Raised (Builtin ValueError)
  /\ startswith (int_to_hex x) "0x" = false
  /\ exists digits, int_to_hex x = "-0x" +:+ digits.
Proof.
  intros Hx. unfold int_to_hex.
  destruct (hex_shape x) as (digits & _ & _ & _ & ->).
  destruct (Z.ltb_spec x 0); [|lia].
  repeat split; eauto.
Qed.

(** ** [wei_to_ether] *)

(** [wei_to_ether] parses its argument with [hex_to_int] and divides the
    integer by [10 ** 18]; on ["0xde0b6b3a7640000"], which is [10 ** 18]
    wei, the quotient is the float [1.0], that is [2^52 * 2^-52]. *)
Lemma wei_to_ether_divides wei :
  wei_to_ether lim wei = (n <- hex_to_int lim wei ;; truediv n (10 ^ 18))
  /\ hex_to_int lim "0xde0b6b3a7640000" = Returned (10 ^ 18)
  /\ wei_to_ether lim "0xde0b6b3a7640000" = Returned float_one
/\ float_one = S754_finite false (2 ^ 52) (-52).
Proof. repeat split. Qed.
End Conversions.

(** C4 at ["0xfF"], which is 255, and at ["0255"], which is 255. *)
Lemma hex_to_int_base_witness :
  hex_to_int 4300 " 0x1f"
  = int_of_str 4300 " 0x1f" (if startswith " 0x1f" "0x" then 16 else 10)
  /\ hex_to_int 4300 ("0x" +:+ "fF") = Returned 255
  /\ hex_to_int 4300 "0255" = Returned 255
  /\ hex_to_int 4300 "0x10" = Returned 16
  /\ hex_to_int 4300 "10" = Returned 10.
Proof.
  apply (hex_to_int_base 4300 " 0x1f" "fF" "0255");
    [discriminate|reflexivity|discriminate|reflexivity].
Defined.

(** C5 at 255. *)
Lemma hex_round_trip_witness :
  hex_to_int 4300 (int_to_hex 255) = Returned 255 /\ int_to_hex 16 = "0x10".
Proof. apply (hex_round_trip 4300 255). lia. Defined.

(** C9 at -31. *)
Lemma hex_round_trip_negative_witness :
  hex_to_int 4300 (int_to_hex (-31)) = Raised (Builtin ValueError)
  /\ int_of_str 4300 (int_to_hex (-31)) 10 = Raised (Builtin ValueError)
  /\ startswith (int_to_hex (-31)) "0x" = false
  /\ exists digits, int_to_hex (-31) = "-0x" +:+ digits.
Proof. apply (hex_round_trip_negative 4300 (-31)). lia. Defined.

(** C7 as stated fails at -1: the result starts with a minus sign, not with
    [0x]. *)
Lemma int_to_hex_minus_one :
  int_to_hex (-1) = "-0x1" /\ startswith (int_to_hex (-1)) "0x" = false.
Proof. split; reflexivity. Qed.

(** ** Worked examples *)

(** The node answers [eth_blockNumber] with ["0x4d2"], which is 1234. *)
Example get_block_number_0x4d2 :
  result (get_block_number (__init__ None)
            (http_ok (PyDict block_number_response)))
  = Returned (PyStr "0x4d2")
  /\ hex_to_int 4300 "0x4d2" = Returned 1234.
Proof. split; vm_compute; reflexivity. Qed.

(** A response whose body is no JSON document: [json()] raises inside the
    [try] block.  A [requests] exception is reported like a transport
    failure; any other exception leaves [_make_request]. *)
Example body_not_json :
  result (_make_request (__init__ None) "net_version" None
            (Returned {| status_error := None;
                         decoded_body :=
                           Raised (RequestException InvalidJSONError
                                     "Expecting value") |}))
  = Returned (PyDict {[ "error" := PyStr "Request failed: Expecting value" ]})
  /\ result (_make_request (__init__ None) "net_version" None
               (Returned {| status_error := None;
                            decoded_body := Raised (Builtin ValueError) |}))
     = Raised (Builtin ValueError).
Proof. split; reflexivity. Qed.

(** What [int] accepts around and inside a numeral. *)
Example int_of_str_lexical :
  int_of_str 4300 " 0x1f " 16 = Returned 31
  /\ int_of_str 4300 "-0X1F" 16 = Returned (-31)
  /\ int_of_str 4300 "0x_10" 16 = Returned 16
  /\ int_of_str 4300 "1_0" 10 = Returned 10
  /\ int_of_str 4300 "1__0" 10 = Raised (Builtin ValueError)
  /\ int_of_str 4300 "10_" 10 = Raised (Builtin ValueError)
  /\ int_of_str 4300 "0x" 16 = Raised (Builtin ValueError)
  /\ int_of_str 4300 "" 10 = Raised (Builtin ValueError)
  /\ int_of_str 4300 "+ 1" 10 = Raised (Builtin ValueError).
Proof. repeat split. Qed.

(** Strings that [hex_to_int] rejects although they denote a hexadecimal
    number: the test for the prefix sees the first two characters only. *)
Example hex_to_int_rejects :
  hex_to_int 4300 " 0x10" = Raised (Builtin ValueError)
  /\ hex_to_int 4300 "0X10" = Raised (Builtin ValueError)
  /\ hex_to_int 4300 "ff" = Raised (Builtin ValueError).
Proof. repeat split. Qed.

(** Division rounds once: one wei is the float nearest to [1e-18], and a
    quotient too large for a float raises. *)
Example wei_to_ether_rounding :
  wei_to_ether 4300 "0x1"
  = Returned (S754_finite false 5192296858534828 (-112))
  /\ wei_to_ether 4300 "0" = Returned (S754_zero false)
  /\ truediv (10 ^ 400) (10 ^ 18) = Raised (Builtin OverflowError).
Proof. repeat split; vm_compute; reflexivity. Qed.

(** * Further properties of the client *)

Section ClientMore.
Implicit Types (self : DeoWeb3Client) (net : post_result).
Implicit Types (params : option (list pyval)) (w : wrapper).

(** No exception of the [requests] hierarchy leaves [_make_request] or a
    wrapper, whatever the network does: what is raised, if anything, is a
    builtin exception. *)
Theorem no_request_exception_escapes w self method params net :
  ((exists v, result (_make_request self method params net) = Returned v)
   \/ (exists b,
         result (_make_request self method params net) = Raised (Builtin b)))
  /\ ((exists v, result (invoke w self net) = Returned v)
      \/ (exists b, result (invoke w self net) = Raised (Builtin b))).
Proof.
  assert (H : forall m p,
    (exists v, result (_make_request self m p net) = Returned v)
    \/ (exists b, result (_make_request self m p net) = Raised (Builtin b))).
  { intros m p. pose proof (make_request_swallows self m p net) as Hs.
    destruct (result (_make_request self m p net)) as [v|[sub msg|b]];
      [left; eauto|discriminate Hs|right; eauto]. }
  split; [apply H|].
  rewrite invoke_unfold. unfold returning_result. cbn [result].
  destruct (H (table_method w) (Some (table_params w))) as [[v ->]|[b ->]].
  - destruct v; cbn; eauto.
  - cbn. eauto.
Qed.

(** The [except] clause catches nothing but [RequestException]: a builtin
    exception raised by [requests.post] or by [json()] leaves
    [_make_request] and every wrapper as it is, and the request id is used
    up all the same. *)
Theorem builtin_exception_propagates w self method params b :
  let raising := Raised (Builtin b) : post_result in
  let undecodable :=
    Returned {| status_error := None; decoded_body := Raised (Builtin b) |}
    : post_result in
  result (_make_request self method params raising) = Raised (Builtin b)
  /\ result (_make_request self method params undecodable) = Raised (Builtin b)
  /\ result (invoke w self raising) = Raised (Builtin b)
  /\ result (invoke w self undecodable) = Raised (Builtin b)
  /\ request_id (self_after (invoke w self raising)) = request_id self + 1
  /\ request_id (self_after (invoke w self undecodable)) = request_id self + 1.
Proof. cbv zeta. rewrite !invoke_unfold. repeat split. Qed.

(** On a transport-level failure every wrapper returns [None]: the caller
    cannot tell an unreachable node from an error answer of the node. *)
Theorem wrapper_none_on_transport_failure w self net cause :
  transport_failure net cause ->
  result (invoke w self net) = Returned PyNone.
Proof.
  intros Hfail. rewrite invoke_unfold. destruct Hfail; reflexivity.
Qed.

Lemma wrapper_none_on_transport_failure_witness :
  result (invoke GetClientVersion (__init__ None)
            (Raised (RequestException Timeout "Read timed out")))
  = Returned PyNone.
Proof.
  apply (wrapper_none_on_transport_failure _ _ _ "Read timed out").
  apply timed_out.
Defined.

(** When the answer is a JSON object with a ["result"] member, every
    wrapper returns that member unchanged, whatever else the object holds
    (an ["error"] member included) and whatever the member is. *)
Theorem wrapper_returns_result w self (d : gmap string pyval) v :
  d !! "result" = Some v ->
  result (invoke w self (http_ok (PyDict d))) = Returned v.
Proof. intros Hv. rewrite invoke_http_ok. cbn. rewrite Hv. reflexivity. Qed.

Lemma wrapper_returns_result_witness :
  result (invoke GetBlockNumber (__init__ None)
            (http_ok (PyDict block_number_response)))
  = Returned (PyStr "0x4d2").
Proof.
  apply (wrapper_returns_result _ _ block_number_response).
  vm_compute. reflexivity.
Defined.

Lemma make_request_well_addressed self method params net :
  well_addressed self (_make_request self method params net).
Proof. repeat split. Qed.

Lemma well_addressed_same_url self self' e :
  rpc_url self' = rpc_url self -> well_addressed self' e -> well_addressed self e.
Proof. unfold well_addressed. intros ->. trivial. Qed.

(** Every request of a sequence of [_make_request] calls goes to the URL
    the client was built with, as JSON-RPC 2.0, with the JSON content type
    and a timeout of 30; no call changes the URL of the client. *)
Theorem requests_well_addressed self calls :
  Forall (well_addressed self) (make_requests self calls).
Proof.
  revert self. induction calls as [|c calls IH]; intros self; cbn.
  - constructor.
  - constructor; [apply make_request_well_addressed|].
    eapply Forall_impl; [apply IH|].
    intros e. apply well_addressed_same_url. reflexivity.
Qed.

Lemma invoke_counter w self net :
  request_id (self_after (invoke w self net)) = request_id self + 1.
Proof. rewrite invoke_unfold. reflexivity. Qed.

Lemma invoke_sent_id w self net : sent_id (invoke w self net) = request_id self.
Proof. rewrite invoke_unfold. reflexivity. Qed.

Lemma invoke_all_ids self calls :
  sent_id <$> invoke_all self calls
  = seqZ (request_id self) (Z.of_nat (length calls)).
Proof.
  revert self; induction calls as [|[w net] calls IH]; intros self.
  - reflexivity.
  - cbn [invoke_all length fmap list_fmap].
    change (list_fmap _ _ sent_id ?l) with (sent_id <$> l).
    rewrite IH, invoke_sent_id, invoke_counter.
    rewrite Nat2Z.inj_succ, (seqZ_cons (request_id self)) by lia.
    f_equal. f_equal; lia.
Qed.

(** Any mix of N wrapper calls on a new client sends the ids 1, ..., N in
    call order: each wrapper uses up exactly one id, whether it returns a
    value, returns [None] or raises.  In particular no two requests of a
    client carry the same id. *)
Theorem wrapper_ids_count_from_one url calls :
  sent_id <$> invoke_all (__init__ url) calls
  = seqZ 1 (Z.of_nat (length calls))
  /\ NoDup (sent_id <$> invoke_all (__init__ url) calls).
Proof.
  split; [apply invoke_all_ids|].
  rewrite invoke_all_ids. apply NoDup_seqZ.
Qed.
End ClientMore.

(** * Further properties of the conversion helpers *)

Lemma digit_value_nonneg c : 0 <= digit_value c.
Proof. unfold digit_value. generalize (ord c). intros n. by_ranges. Qed.

Lemma chr_ord c : chr (ord c) = c.
Proof. unfold chr, ord. rewrite N2Z.id. apply ascii_N_embedding. Qed.

Lemma lower_hex_char c :
  is_lower_hex c = true -> hex_digit (digit_value c) = c.
Proof.
  intros H. rewrite <- (chr_ord c) at 2. revert H.
  unfold is_lower_hex, hex_digit, digit_value. generalize (ord c).
  intros n. by_ranges; intros _; f_equal; lia.
Qed.

Lemma lower_hex_char_eq c1 c2 :
  is_lower_hex c1 = true -> is_lower_hex c2 = true ->
  digit_value c1 = digit_value c2 -> c1 = c2.
Proof.
  intros H1 H2 E. rewrite <- (lower_hex_char c1 H1), <- (lower_hex_char c2 H2).
  rewrite E. reflexivity.
Qed.

(** Reading digits and then more: the loop goes through a run of digits
    and continues on what follows. *)
Lemma scan_digits_app base a : forall rest acc n,
  base <= 36 -> all_digits base a = true ->
  scan_digits base (a +:+ rest) false acc n
  = scan_digits base rest false (numeral_from base acc a)
      (n + String.length a).
Proof.
  induction a as [|c r IH]; intros rest acc n Hb Hall.
  - cbn. rewrite Nat.add_0_r. reflexivity.
  - cbn [all_digits] in Hall. apply andb_prop in Hall as [Hc Hr].
    change (String c r +:+ rest) with (String c (r +:+ rest)).
    rewrite scan_digits_digit, IH by assumption.
    cbn [numeral_from String.length]. rewrite Nat.add_succ_r. reflexivity.
Qed.

Lemma scan_digits_nonneg base s : forall prev acc n z k rest,
  0 <= base -> 0 <= acc ->
  scan_digits base s prev acc n = Some (z, k, rest) -> 0 <= z.
Proof.
  induction s as [|c r IH]; intros prev acc n z k rest Hb Hacc; cbn.
  - destruct prev; [discriminate|]. intros [= <- _ _]. exact Hacc.
  - destruct (Ascii.eqb c "_").
    + destruct prev; [discriminate|]. apply IH; assumption.
    + destruct (digit_value c <? base).
      * apply IH; [assumption|]. pose proof (digit_value_nonneg c). nia.
      * destruct prev; [discriminate|]. intros [= <- _ _]. exact Hacc.
Qed.

Lemma numeral_from_bounds s : forall acc,
  0 <= acc -> all_digits 16 s = true ->
  acc * 16 ^ Z.of_nat (String.length s) <= numeral_from 16 acc s
  /\ numeral_from 16 acc s < (acc + 1) * 16 ^ Z.of_nat (String.length s).
Proof.
  induction s as [|c r IH]; intros acc Hacc Hall.
  - cbn. lia.
  - cbn [all_digits] in Hall. apply andb_prop in Hall as [Hc Hr].
    apply Z.ltb_lt in Hc. pose proof (digit_value_nonneg c) as Hc0.
    cbn [numeral_from String.length].
    rewrite Nat2Z.inj_succ, Z.pow_succ_r by lia.
    destruct (IH (acc * 16 + digit_value c)) as [Hlo Hhi]; [lia|exact Hr|].
    assert (0 < 16 ^ Z.of_nat (String.length r)) by (apply Z.pow_pos_nonneg; lia).
    split; nia.
Qed.

(** Two runs of lowercase digits of the same length with the same value
    are the same run. *)
Lemma numeral_from_inj s1 : forall s2 acc1 acc2,
  String.length s1 = String.length s2 ->
  all_lower_hex s1 = true -> all_lower_hex s2 = true ->
  numeral_from 16 acc1 s1 = numeral_from 16 acc2 s2 ->
  acc1 = acc2 /\ s1 = s2.
Proof.
  induction s1 as [|c1 r1 IH]; intros [|c2 r2] acc1 acc2 Hlen H1 H2 E;
    try discriminate Hlen.
  - cbn in E. auto.
  - cbn [all_lower_hex] in H1, H2.
    apply andb_prop in H1 as [Hc1 Hr1]. apply andb_prop in H2 as [Hc2 Hr2].
    cbn [numeral_from] in E. injection Hlen as Hlen.
    destruct (IH r2 _ _ Hlen Hr1 Hr2 E) as [Eacc ->].
    pose proof (lower_hex_is_hex_digit c1 Hc1) as B1.
    pose proof (lower_hex_is_hex_digit c2 Hc2) as B2.
    apply Z.ltb_lt in B1, B2.
    pose proof (digit_value_nonneg c1). pose proof (digit_value_nonneg c2).
    assert (Ed : digit_value c1 = digit_value c2) by lia.
    split; [lia|]. f_equal. apply lower_hex_char_eq; assumption.
Qed.

(** With enough fuel the first digit that [hex_digits] writes for a
    positive number is not zero. *)
Lemma hex_digits_head_nonzero fuel : forall n acc,
  0 < n < 16 ^ Z.of_nat fuel ->
  exists d r, 0 < d < 16 /\ hex_digits fuel n acc = String (hex_digit d) r.
Proof.
  induction fuel as [|fuel IH]; intros n acc Hn; [cbn in Hn; lia|].
  rewrite Nat2Z.inj_succ, Z.pow_succ_r in Hn by lia.
  cbn [hex_digits]. destruct (Z.eqb_spec (n / 16) 0) as [Hq|Hq].
  - exists (n mod 16), acc. split; [|reflexivity].
    pose proof (Z.div_mod n 16 ltac:(lia)).
    pose proof (Z.mod_pos_bound n 16 ltac:(lia)). lia.
  - apply IH. split.
    + assert (0 <= n / 16) by (apply Z.div_pos; lia). lia.
    + apply Z.div_lt_upper_bound; lia.
Qed.

Section ConversionsMore.
Variable lim : nat.

(** A [0x] followed by hexadecimal digits of either case decodes to the
    positional value of the digits in base 16, however long the numeral
    is. *)
Theorem hex_literal_value body :
  body <> EmptyString -> all_digits 16 body = true ->
  hex_to_int lim ("0x" +:+ body) = Returned (numeral 16 body).
Proof. apply hex_to_int_0x. Qed.

(** A string of decimal digits decodes to its positional value in base 10;
    when it has more digits than the interpreter allows for a conversion
    (more than 640 and more than a non-zero limit), [ValueError] is raised
    instead. *)
Theorem decimal_literal_value body :
  body <> EmptyString -> all_digits 10 body = true ->
  hex_to_int lim body
  = if too_many_digits lim 10 (String.length body)
    then Raised (Builtin ValueError)
    else Returned (numeral 10 body).
Proof.
  intros Hne Hall. unfold hex_to_int.
  rewrite (decimal_not_0x body Hall). apply int_of_str_decimal; assumption.
Qed.

(** The prefix has to be a lowercase [0x] at the very start: an uppercase
    [0X], a blank or a sign in front of the prefix send the string to the
    base-10 parse, which raises [ValueError] at the [x], whatever
    follows. *)
Theorem hex_prefix_is_strict body :
  hex_to_int lim ("0X" +:+ body) = Raised (Builtin ValueError)
  /\ hex_to_int lim (" 0x" +:+ body) = Raised (Builtin ValueError)
  /\ hex_to_int lim ("+0x" +:+ body) = Raised (Builtin ValueError)
  /\ hex_to_int lim ("-0x" +:+ body) = Raised (Builtin ValueError).
Proof. repeat split. Qed.

Lemma hex_to_int_0x_sign s z :
  startswith s "0x" = true -> hex_to_int lim s = Returned z -> 0 <= z.
Proof.
  intros Hpre. unfold hex_to_int. rewrite Hpre.
  destruct s as [|c0 [|c1 r]];
    [discriminate Hpre
    |cbn [startswith] in Hpre; rewrite andb_false_r in Hpre; discriminate Hpre
    |].
  cbn [startswith] in Hpre.
  apply andb_prop in Hpre as [H0 Hx]. apply andb_prop in Hx as [Hx _].
  apply Ascii.eqb_eq in H0, Hx. subst c0 c1.
  unfold int_of_str.
  change (skip_spaces (String "0" (String "x" r)))
    with (String "0" (String "x" r)).
  cbn [strip_sign Ascii.eqb Bool.eqb].
  destruct (strip_prefix 16 (String "0" (String "x" r))) as [|c s];
    [discriminate|].
  destruct (Ascii.eqb c "_"); [discriminate|].
  destruct (scan_digits 16 (String c s) false 0 0) as [[[v n] rest]|] eqn:Hscan;
    [|discriminate].
  destruct (n =? 0)%nat; [discriminate|].
  destruct (too_many_digits lim 16 n); [discriminate|].
  destruct (skip_spaces rest); [|discriminate].
  intros [= <-]. eapply scan_digits_nonneg; [| |exact Hscan]; lia.
Qed.

(** A string that starts with [0x] never decodes to a negative number. *)
Theorem hex_to_int_0x_nonneg s z :
  startswith s "0x" = true -> hex_to_int lim s = Returned z -> 0 <= z.
Proof. apply hex_to_int_0x_sign. Qed.

Lemma scan_digits_count base s : forall prev acc n z k rest,
  scan_digits base s prev acc n = Some (z, k, rest) -> (n <= k)%nat.
Proof.
  induction s as [|c r IH]; intros prev acc n z k rest; cbn.
  - destruct prev; [discriminate|]. intros [= _ <- _]. lia.
  - destruct (Ascii.eqb c "_").
    + destruct prev; [discriminate|]. apply IH.
    + destruct (digit_value c <? base).
      * intros H. apply IH in H. lia.
      * destruct prev; [discriminate|]. intros [= _ <- _]. lia.
Qed.

(** [int(s, 16)] on [0x], a run of digits and a rest: the loop goes through
    the run and decides on the rest. *)
Lemma int_of_str_0x_run a rest :
  a <> EmptyString -> all_digits 16 a = true ->
  int_of_str lim ("0x" +:+ a +:+ rest) 16
  = match scan_digits 16 rest false (numeral 16 a) (String.length a) with
    | Some (z, _, rest') =>
        match skip_spaces rest' with
        | EmptyString => Returned z
        | String _ _ => Raised (Builtin ValueError)
        end
    | None => Raised (Builtin ValueError)
    end.
Proof.
  intros Ha Hall. destruct a as [|c r]; [congruence|].
  pose proof Hall as Hc. cbn [all_digits] in Hc.
  apply andb_prop in Hc as [Hc _].
  pose proof (digit_not_underscore 16 c ltac:(lia) Hc) as Hus.
  change ("0x" +:+ String c r +:+ rest)
    with (String "0" (String "x" (String c (r +:+ rest)))).
  unfold int_of_str.
  change (skip_spaces (String "0" (String "x" ?s)))
    with (String "0" (String "x" s)).
  cbn [strip_sign strip_prefix Ascii.eqb Bool.eqb Z.eqb Pos.eqb andb orb].
  rewrite Hus. cbv beta iota. rewrite Hus.
  change (String c (r +:+ rest)) with (String c r +:+ rest).
  rewrite scan_digits_app by (lia || assumption).
  change (String.length (String c r)) with (S (String.length r)).
  cbn [Nat.add].
  change (numeral_from 16 0 (String c r)) with (numeral 16 (String c r)).
  destruct (scan_digits 16 rest false (numeral 16 (String c r))
              (S (String.length r))) as [[[z n] rest']|] eqn:E; [|reflexivity].
  apply scan_digits_count in E. destruct n as [|n]; [lia|]. reflexivity.
Qed.

Lemma scan_digits_underscore base s acc n :
  scan_digits base (String "_" s) false acc n = scan_digits base s true acc n.
Proof. reflexivity. Qed.

Lemma scan_digits_after_underscore base s acc n :
  base <= 36 -> s <> EmptyString -> all_digits base s = true ->
  scan_digits base s true acc n = scan_digits base s false acc n.
Proof.
  intros Hb Hs Hall. destruct s as [|c r]; [congruence|].
  cbn [all_digits] in Hall. apply andb_prop in Hall as [Hc _].
  cbn [scan_digits]. rewrite (digit_not_underscore base c Hb Hc), Hc.
  reflexivity.
Qed.

(** One underscore between two runs of hexadecimal digits is ignored; two
    in a row, or one at the end, make the string invalid. *)
Theorem hex_to_int_underscores a b :
  a <> EmptyString -> b <> EmptyString ->
  all_digits 16 a = true -> all_digits 16 b = true ->
  hex_to_int lim ("0x" +:+ a +:+ "_" +:+ b) = hex_to_int lim ("0x" +:+ a +:+ b)
  /\ hex_to_int lim ("0x" +:+ a +:+ "__" +:+ b) = Raised (Builtin ValueError)
  /\ hex_to_int lim ("0x" +:+ a +:+ "_") = Raised (Builtin ValueError).
Proof.
  intros Ha Hb Hall_a Hall_b. unfold hex_to_int.
  change (startswith ("0x" +:+ ?s) "0x") with true. cbv iota.
  rewrite !int_of_str_0x_run by assumption.
  change ("_" +:+ b) with (String "_" b).
  change ("__" +:+ b) with (String "_" (String "_" b)).
  rewrite !scan_digits_underscore.
  rewrite scan_digits_after_underscore by (lia || assumption).
  repeat split.
Qed.
End ConversionsMore.

(** ** [int_to_hex] is one-to-one, and [hex_to_int] undoes it on its image *)

Lemma lower_hex_leading_digit c :
  is_lower_hex c = true -> Ascii.eqb c "0" = false -> 1 <= digit_value c < 16.
Proof.
  intros Hc Hz.
  assert (Hord : ord c <> 48).
  { intros E. rewrite <- (chr_ord c), E in Hz. discriminate Hz. }
  revert Hc Hord. unfold is_lower_hex, digit_value. generalize (ord c).
  intros n. by_ranges.
Qed.

(** Runs of lowercase digits that do not start with a zero and have the
    same value are equal. *)
Lemma canonical_digits_unique c1 r1 c2 r2 :
  all_lower_hex (String c1 r1) = true -> all_lower_hex (String c2 r2) = true ->
  Ascii.eqb c1 "0" = false -> Ascii.eqb c2 "0" = false ->
  numeral 16 (String c1 r1) = numeral 16 (String c2 r2) ->
  String c1 r1 = String c2 r2.
Proof.
  intros H1 H2 Z1 Z2 E.
  pose proof H1 as L1. pose proof H2 as L2.
  cbn [all_lower_hex] in L1, L2.
  apply andb_prop in L1 as [Hc1 Hr1]. apply andb_prop in L2 as [Hc2 Hr2].
  pose proof (lower_hex_leading_digit c1 Hc1 Z1) as D1.
  pose proof (lower_hex_leading_digit c2 Hc2 Z2) as D2.
  assert (Hlen : String.length r1 = String.length r2).
  { unfold numeral in E. cbn [numeral_from] in E.
    destruct (numeral_from_bounds r1 (0 * 16 + digit_value c1)) as [Lo1 Hi1];
      [lia|apply all_lower_hex_digits, Hr1|].
    destruct (numeral_from_bounds r2 (0 * 16 + digit_value c2)) as [Lo2 Hi2];
      [lia|apply all_lower_hex_digits, Hr2|].
    set (p1 := 16 ^ Z.of_nat (String.length r1)) in *.
    set (p2 := 16 ^ Z.of_nat (String.length r2)) in *.
    assert (P1 : 0 < p1) by (apply Z.pow_pos_nonneg; lia).
    assert (P2 : 0 < p2) by (apply Z.pow_pos_nonneg; lia).
    assert (A : p1 < 16 * p2) by nia.
    assert (B : p2 < 16 * p1) by nia.
    unfold p1, p2 in A, B.
    rewrite <- Z.pow_succ_r, <- Nat2Z.inj_succ in A, B by lia.
    apply Z.pow_lt_mono_r_iff in A, B; lia. }
  unfold numeral in E.
  destruct (numeral_from_inj (String c1 r1) (String c2 r2) 0 0) as [_ ->];
    [cbn; congruence|assumption|assumption|exact E|reflexivity].
Qed.

Section Image.
Variable lim : nat.

(** [int_to_hex] is one-to-one on all integers. *)
Theorem int_to_hex_injective a b :
  int_to_hex a = int_to_hex b -> a = b.
Proof.
  unfold int_to_hex.
  destruct (hex_shape a) as (da & _ & _ & Va & ->).
  destruct (hex_shape b) as (db & _ & _ & Vb & ->).
  destruct (Z.ltb_spec a 0), (Z.ltb_spec b 0); intros E;
    cbv beta iota delta [String.append] in E; fold String.append in E;
    try discriminate E; injection E as E; rewrite E in Va; lia.
Qed.

Lemma hex_canonical x : 0 <= x -> canonical_hex (hex x) = true.
Proof.
  intros Hx. unfold hex. destruct (Z.ltb_spec x 0); [lia|].
  rewrite Z.abs_eq by exact Hx.
  set (fuel := S (Z.to_nat (Z.log2 x))).
  assert (Hlow : all_lower_hex (hex_digits fuel x "") = true)
    by (apply hex_digits_lower; reflexivity).
  destruct (Z.eq_dec x 0) as [->|Hnz]; [reflexivity|].
  destruct (hex_digits_head_nonzero fuel x "") as (d & r & Hd & E).
  { split; [lia|apply hex_fuel_enough, Hx]. }
  rewrite E in Hlow |- *.
  change ("0x" +:+ String (hex_digit d) r)
    with (String "0" (String "x" (String (hex_digit d) r))).
  cbn [canonical_hex Ascii.eqb Bool.eqb andb]. rewrite Hlow.
  assert (Hz : Ascii.eqb (hex_digit d) "0" = false).
  { destruct (Ascii.eqb_spec (hex_digit d) "0") as [E0|]; [|reflexivity].
    apply (f_equal digit_value) in E0.
    rewrite digit_value_hex_digit in E0 by lia.
    change (digit_value "0") with 0 in E0. lia. }
  rewrite Hz. reflexivity.
Qed.

(** The image of the non-negative integers under [int_to_hex] is the set
    of canonical strings, and on a canonical string [hex_to_int] followed
    by [int_to_hex] gives the string back. *)
Theorem canonical_hex_round_trip s :
  canonical_hex s = true ->
  exists z, 0 <= z /\ hex_to_int lim s = Returned z /\ int_to_hex z = s.
Proof.
  intros Hs. destruct s as [|a [|b [|c r]]]; try discriminate Hs.
  cbn [canonical_hex] in Hs.
  apply andb_prop in Hs as [Hs Hlead]. apply andb_prop in Hs as [Hs Hlow].
  apply andb_prop in Hs as [Ha Hb].
  apply Ascii.eqb_eq in Ha, Hb. subst a b.
  change (String "0" (String "x" (String c r))) with ("0x" +:+ String c r).
  set (z := numeral 16 (String c r)).
  assert (Hz : 0 <= z).
  { destruct (numeral_from_bounds (String c r) 0) as [Lo _];
      [lia|apply all_lower_hex_digits, Hlow|]. exact Lo. }
  exists z. split; [exact Hz|]. split.
  - apply hex_to_int_0x; [discriminate|apply all_lower_hex_digits, Hlow].
  - unfold int_to_hex.
    destruct (hex_shape z) as (d & Hne & Hlow' & Hval & Hhex).
    pose proof (hex_canonical z Hz) as Hcan. rewrite Hhex in Hcan |- *.
    destruct (Z.ltb_spec z 0); [lia|]. f_equal.
    rewrite Z.abs_eq in Hval by exact Hz.
    destruct d as [|c' r']; [congruence|].
    change ("0x" +:+ String c' r')
      with (String "0" (String "x" (String c' r'))) in Hcan.
    cbn [canonical_hex Ascii.eqb Bool.eqb andb] in Hcan.
    apply andb_prop in Hcan as [_ Hlead'].
    destruct (Ascii.eqb c "0") eqn:Ec, (Ascii.eqb c' "0") eqn:Ec'.
    + (* both are the single digit 0 *)
      cbn in Hlead, Hlead'.
      apply Nat.eqb_eq in Hlead, Hlead'.
      destruct r; [|discriminate Hlead]. destruct r'; [|discriminate Hlead'].
      apply Ascii.eqb_eq in Ec, Ec'. congruence.
    + (* the string is 0, so the value is 0, but hex writes a non-zero digit *)
      cbn in Hlead. apply Nat.eqb_eq in Hlead.
      destruct r; [|discriminate Hlead].
      apply Ascii.eqb_eq in Ec. subst c.
      pose proof Hlow' as L. cbn [all_lower_hex] in L.
      apply andb_prop in L as [Lc Lr].
      pose proof (lower_hex_leading_digit c' Lc Ec') as D.
      destruct (numeral_from_bounds r' (0 * 16 + digit_value c')) as [Lo _];
        [lia|apply all_lower_hex_digits, Lr|].
      assert (0 < 16 ^ Z.of_nat (String.length r'))
        by (apply Z.pow_pos_nonneg; lia).
      unfold numeral in Hval. cbn [numeral_from] in Hval.
      subst z. change (numeral 16 "0") with 0 in Hval. exfalso. nia.
    + (* hex wrote 0, so the value is 0, but the string starts otherwise *)
      cbn in Hlead'. apply Nat.eqb_eq in Hlead'.
      destruct r'; [|discriminate Hlead'].
      apply Ascii.eqb_eq in Ec'. subst c'.
      pose proof Hlow as L. cbn [all_lower_hex] in L.
      apply andb_prop in L as [Lc Lr].
      pose proof (lower_hex_leading_digit c Lc Ec) as D.
      destruct (numeral_from_bounds r (0 * 16 + digit_value c)) as [Lo _];
        [lia|apply all_lower_hex_digits, Lr|].
      assert (0 < 16 ^ Z.of_nat (String.length r))
        by (apply Z.pow_pos_nonneg; lia).
      change (numeral 16 "0") with 0 in Hval.
      unfold z, numeral in Hval. cbn [numeral_from] in Hval. exfalso. nia.
    + symmetry. apply canonical_digits_unique; try assumption.
      symmetry. exact Hval.
Qed.

(** Every non-negative integer is written as a canonical string. *)
Theorem int_to_hex_canonical x :
  0 <= x -> canonical_hex (int_to_hex x) = true.
Proof. apply hex_canonical. Qed.
End Image.

(** ** The sign of a quotient *)

Lemma shr_1_nonneg mrs : 0 <= shr_m mrs -> 0 <= shr_m (shr_1 mrs).
Proof. destruct mrs as [[|[p|p|]|p] r s]; cbn; lia. Qed.

Lemma iter_shr_1_nonneg p : forall mrs,
  0 <= shr_m mrs -> 0 <= shr_m (SpecFloat.iter_pos shr_1 p mrs).
Proof.
  induction p as [p IH|p IH|]; intros mrs H; cbn [SpecFloat.iter_pos].
  - apply IH, IH, shr_1_nonneg, H.
  - apply IH, IH, H.
  - apply shr_1_nonneg, H.
Qed.

Lemma shr_fexp_nonneg m e l :
  0 <= m -> 0 <= shr_m (fst (shr_fexp prec emax m e l)).
Proof.
  intros Hm. unfold shr_fexp, shr.
  assert (H0 : 0 <= shr_m (shr_record_of_loc m l))
    by (destruct l as [|[]]; exact Hm).
  destruct (fexp prec emax (Zdigits2 m + e) - e); cbn [fst];
    [exact H0|apply iter_shr_1_nonneg, H0|exact H0].
Qed.

Lemma round_nearest_even_nonneg m l : 0 <= m -> 0 <= round_nearest_even m l.
Proof.
  intros Hm. destruct l as [|[]]; cbn; try lia. destruct (Z.even m); lia.
Qed.

(** Rounding a non-negative mantissa gives zero, a finite float or an
    infinity, with the sign it was given. *)
Lemma binary_round_aux_sign sx m e l :
  0 <= m ->
  match binary_round_aux prec emax sx m e l with
  | S754_zero s | S754_finite s _ _ | S754_infinity s => s = sx
  | S754_nan => False
  end.
Proof.
  intros Hm. unfold binary_round_aux.
  pose proof (shr_fexp_nonneg m e l Hm) as H1.
  destruct (shr_fexp prec emax m e l) as [mrs' e']. cbn [fst] in H1.
  pose proof (shr_fexp_nonneg _ e' loc_Exact
                (round_nearest_even_nonneg _ (loc_of_shr_record mrs') H1))
    as H2.
  destruct (shr_fexp prec emax _ e' loc_Exact) as [mrs'' e'']. cbn [fst] in H2.
  destruct (shr_m mrs'') as [|p|p]; [reflexivity| |lia].
  destruct (e'' <=? emax - prec); reflexivity.
Qed.

Lemma SFdiv_core_quotient_nonneg m1 e1 m2 e2 :
  0 <= m1 -> 0 < m2 ->
  0 <= fst (fst (SFdiv_core_binary prec emax m1 e1 m2 e2)).
Proof.
  intros H1 H2. unfold SFdiv_core_binary.
  set (m' := match _ - _ - _ with Z0 => m1 | Zpos _ => _ | Zneg _ => 0 end).
  assert (Hm' : 0 <= m').
  { unfold m'. destruct (_ - _ - _); [exact H1| |lia].
    apply Z.shiftl_nonneg, H1. }
  pose proof (Z.div_pos m' m2 Hm' H2) as Hq. unfold Z.div in Hq.
  destruct (Z.div_eucl m' m2) as [q r]. exact Hq.
Qed.

(** Dividing a non-negative integer by a positive one gives [+0.0] or a
    positive finite float, or raises [OverflowError]. *)
Lemma truediv_nonneg a b :
  0 <= a -> 0 < b ->
  match truediv a b with
  | Returned f => is_nonneg_finite f = true
  | Raised e => e = Builtin OverflowError
  end.
Proof.
  intros Ha Hb. unfold truediv.
  destruct (Z.eqb_spec b 0); [lia|].
  destruct b as [|pb|pb]; try lia.
  destruct a as [|pa|pa]; try lia; [reflexivity|].
  cbn [float_of_int_exact SFdiv xorb].
  pose proof (SFdiv_core_quotient_nonneg (Z.pos pa) 0 (Z.pos pb) 0
                ltac:(lia) ltac:(lia)) as Hq.
  destruct (SFdiv_core_binary prec emax (Z.pos pa) 0 (Z.pos pb) 0)
    as [[q e] l]. cbn [fst] in Hq.
  pose proof (binary_round_aux_sign false q e l Hq) as Hs.
  destruct (binary_round_aux prec emax false q e l) as [s|s| |s m' e'];
    try (subst s; reflexivity). destruct Hs.
Qed.

Section EtherSign.
Variable lim : nat.

(** For a string that starts with [0x], [wei_to_ether] returns [+0.0] or
    a positive finite float, or raises [ValueError] (invalid string) or
    [OverflowError] (quotient beyond the floats): never a negative number,
    an infinity, a NaN or [ZeroDivisionError]. *)
Theorem wei_to_ether_0x_nonneg wei :
  startswith wei "0x" = true ->
  match wei_to_ether lim wei with
  | Returned f => is_nonneg_finite f = true
  | Raised e => e = Builtin ValueError \/ e = Builtin OverflowError
  end.
Proof.
  intros Hpre. unfold wei_to_ether.
  pose proof (hex_to_int_0x_sign lim wei) as Hnn.
  assert (Herr : forall e, hex_to_int lim wei = Raised e -> e = Builtin ValueError).
  { unfold hex_to_int, int_of_str. rewrite Hpre.
    destruct (strip_sign _) as [neg s1].
    destruct (strip_prefix 16 s1) as [|c s2]; [intros e [= <-]; reflexivity|].
    destruct (Ascii.eqb c "_"); [intros e [= <-]; reflexivity|].
    destruct (scan_digits _ _ _ _ _) as [[[z n] rest]|];
      [|intros e [= <-]; reflexivity].
    destruct (n =? 0)%nat; [intros e [= <-]; reflexivity|].
    destruct (too_many_digits _ _ _); [intros e [= <-]; reflexivity|].
    destruct (skip_spaces rest); intros e E; [discriminate E|].
    injection E as <-. reflexivity. }
  destruct (hex_to_int lim wei) as [n|e]; cbn [bind].
  - specialize (Hnn n Hpre eq_refl).
    pose proof (truediv_nonneg n (10 ^ 18) Hnn ltac:(lia)) as Hd.
    destruct (truediv n (10 ^ 18)) as [f|e]; [exact Hd|right; exact Hd].
  - left. apply Herr. reflexivity.
Qed.
End EtherSign.

Lemma wei_to_ether_0x_nonneg_witness :
  match wei_to_ether 4300 "0xde0b6b3a7640000" with
  | Returned f => is_nonneg_finite f = true
  | Raised e => e = Builtin ValueError \/ e = Builtin OverflowError
  end.
Proof. apply (wei_to_ether_0x_nonneg 4300 "0xde0b6b3a7640000"). reflexivity. Defined.

(** ** The quotient is rounded to nearest

    [truediv] goes through [SFdiv]: the divisor is divided into the dividend
    shifted far enough to the left, the remainder gives the position of the
    exact quotient between two integers, the quotient is shifted to 53 bits
    with a round and a sticky bit, and rounded. *)

Lemma fexp_eq x : fexp prec emax x = Z.max (x - 53) (-1074).
Proof. reflexivity. Qed.

Lemma digits2_pos_spec p :
  2 ^ (Zpos (digits2_pos p) - 1) <= Zpos p < 2 ^ Zpos (digits2_pos p).
Proof.
  induction p as [p IH|p IH|]; cbn [digits2_pos].
  - rewrite Pos2Z.inj_succ. change (Z.pos p~1) with (2 * Z.pos p + 1).
    replace (Z.succ (Z.pos (digits2_pos p)) - 1) with (Z.succ (Z.pos (digits2_pos p) - 1)) by lia.
    rewrite !Z.pow_succ_r by lia. lia.
  - rewrite Pos2Z.inj_succ. change (Z.pos p~0) with (2 * Z.pos p).
    replace (Z.succ (Z.pos (digits2_pos p)) - 1) with (Z.succ (Z.pos (digits2_pos p) - 1)) by lia.
    rewrite !Z.pow_succ_r by lia. lia.
  - cbn. lia.
Qed.

Lemma Zdigits2_spec m : 0 < m -> 2 ^ (Zdigits2 m - 1) <= m < 2 ^ Zdigits2 m.
Proof. destruct m as [|p|p]; try lia. intros _. apply digits2_pos_spec. Qed.

Lemma Zdigits2_nonneg m : 0 <= Zdigits2 m.
Proof. destruct m; cbn; lia. Qed.

Lemma Zdigits2_pos m : 0 < m -> 0 < Zdigits2 m.
Proof. destruct m; cbn; lia. Qed.

Lemma Zdigits2_unique m k : 0 < m -> 2 ^ (k - 1) <= m < 2 ^ k -> Zdigits2 m = k.
Proof.
  intros Hm [Hlo Hhi]. pose proof (Zdigits2_spec m Hm) as [Dlo Dhi].
  pose proof (Zdigits2_pos m Hm).
  assert (0 < k).
  { destruct (Z.lt_trichotomy k 0) as [|[|]]; try lia.
    - rewrite Z.pow_neg_r in Hhi by lia. lia.
    - subst k. cbn in Hhi. lia. }
  assert (Zdigits2 m - 1 < k) by (apply (Z.pow_lt_mono_r_iff 2); lia).
  assert (k - 1 < Zdigits2 m) by (apply (Z.pow_lt_mono_r_iff 2); lia).
  lia.
Qed.

Lemma Zdigits2_div_pow q n :
  0 < q -> 0 <= n -> n < Zdigits2 q -> Zdigits2 (q / 2 ^ n) = Zdigits2 q - n.
Proof.
  intros Hq Hn Hlt. destruct (Zdigits2_spec q Hq) as [Lo Hi].
  assert (P : 0 < 2 ^ n) by (apply Z.pow_pos_nonneg; lia).
  assert (E1 : 2 ^ (Zdigits2 q - 1) = 2 ^ (Zdigits2 q - n - 1) * 2 ^ n)
    by (rewrite <- Z.pow_add_r by lia; f_equal; lia).
  assert (E2 : 2 ^ Zdigits2 q = 2 ^ (Zdigits2 q - n) * 2 ^ n)
    by (rewrite <- Z.pow_add_r by lia; f_equal; lia).
  assert (L : 2 ^ (Zdigits2 q - n - 1) <= q / 2 ^ n).
  { apply Z.div_le_lower_bound; lia. }
  assert (U : q / 2 ^ n < 2 ^ (Zdigits2 q - n)).
  { apply Z.div_lt_upper_bound; lia. }
  assert (0 < 2 ^ (Zdigits2 q - n - 1)) by (apply Z.pow_pos_nonneg; lia).
  apply Zdigits2_unique; [lia|]. split; [exact L|exact U].
Qed.

Lemma Zdigits2_div_pow_zero q n :
  0 <= q -> 0 <= n -> Zdigits2 q <= n -> q / 2 ^ n = 0.
Proof.
  intros Hq Hn Hle. destruct (Z.eq_dec q 0) as [->|Hz]; [apply Z.div_0_l; apply Z.pow_nonzero; lia|].
  destruct (Zdigits2_spec q ltac:(lia)) as [_ Hi].
  apply Z.div_small. split; [lia|].
  eapply Z.lt_le_trans; [exact Hi|]. apply Z.pow_le_mono_r; lia.
Qed.

Lemma Zdigits2_succ m :
  0 <= m ->
  Zdigits2 (m + 1) = Zdigits2 m
  \/ (Zdigits2 (m + 1) = Zdigits2 m + 1 /\ m + 1 = 2 ^ Zdigits2 m).
Proof.
  intros Hm. destruct (Z.eq_dec m 0) as [->|Hz]; [right; split; reflexivity|].
  destruct (Zdigits2_spec m ltac:(lia)) as [Lo Hi].
  pose proof (Zdigits2_pos m ltac:(lia)).
  destruct (Z.eq_dec (m + 1) (2 ^ Zdigits2 m)) as [E|N].
  - right. split; [|exact E]. apply Zdigits2_unique; [lia|].
    replace (Zdigits2 m + 1 - 1) with (Zdigits2 m) by lia.
    rewrite Z.pow_add_r by lia. change (2 ^ 1) with 2. lia.
  - left. apply Zdigits2_unique; lia.
Qed.

Lemma shr_m_shr_1 mrs : 0 <= shr_m mrs -> shr_m (shr_1 mrs) = shr_m mrs / 2.
Proof.
  destruct mrs as [[|[p|p|]|p] r s]; cbn [shr_1 shr_m]; intros H; try lia.
  - reflexivity.
  - change (Z.pos p~1) with (2 * Z.pos p + 1).
    apply Z.div_unique with 1; lia.
  - change (Z.pos p~0) with (2 * Z.pos p).
    apply Z.div_unique with 0; lia.
  - reflexivity.
Qed.

Lemma located_shr_1 mrs p d :
  0 < d -> 0 <= shr_m mrs -> located mrs p d -> located (shr_1 mrs) p (2 * d).
Proof.
  intros Hd Hm. unfold located.
  destruct mrs as [[|[q|q|]|q] [|] [|]]; cbn [shr_1 shr_m shr_r shr_s orb];
    try (cbn in Hm; lia);
    try change (Z.pos q~1) with (2 * Z.pos q + 1);
    try change (Z.pos q~0) with (2 * Z.pos q);
    nia.
Qed.

Lemma iter_shr_1 n : forall mrs p d,
  0 < d -> 0 <= shr_m mrs -> located mrs p d ->
  let mrs' := SpecFloat.iter_pos shr_1 n mrs in
  located mrs' p (2 ^ Zpos n * d)
  /\ shr_m mrs' = shr_m mrs / 2 ^ Zpos n.
Proof.
  assert (Step : forall mrs p d,
    0 < d -> 0 <= shr_m mrs -> located mrs p d ->
    located (shr_1 mrs) p (2 ^ 1 * d) /\ shr_m (shr_1 mrs) = shr_m mrs / 2 ^ 1).
  { intros. split; [apply located_shr_1; assumption|apply shr_m_shr_1; assumption]. }
  assert (Comp : forall (f g : shr_record -> shr_record) a b,
    0 <= a -> 0 <= b ->
    (forall mrs p d, 0 < d -> 0 <= shr_m mrs -> located mrs p d ->
       located (f mrs) p (2 ^ a * d) /\ shr_m (f mrs) = shr_m mrs / 2 ^ a) ->
    (forall mrs p d, 0 < d -> 0 <= shr_m mrs -> located mrs p d ->
       located (g mrs) p (2 ^ b * d) /\ shr_m (g mrs) = shr_m mrs / 2 ^ b) ->
    forall mrs p d, 0 < d -> 0 <= shr_m mrs -> located mrs p d ->
       located (g (f mrs)) p (2 ^ (a + b) * d)
       /\ shr_m (g (f mrs)) = shr_m mrs / 2 ^ (a + b)).
  { intros f g a b Ha Hb Hf Hg mrs p d Hd Hm Hl.
    destruct (Hf mrs p d Hd Hm Hl) as [L1 M1].
    assert (Pa : 0 < 2 ^ a) by (apply Z.pow_pos_nonneg; lia).
    assert (Pb : 0 < 2 ^ b) by (apply Z.pow_pos_nonneg; lia).
    destruct (Hg (f mrs) p (2 ^ a * d)) as [L2 M2]; [nia| |exact L1|].
    - rewrite M1. apply Z.div_pos; lia.
    - split.
      + rewrite Z.pow_add_r by lia.
        replace (2 ^ a * 2 ^ b * d) with (2 ^ b * (2 ^ a * d)) by ring. exact L2.
      + rewrite M2, M1, Z.pow_add_r by lia. apply Z.div_div; lia. }
  assert (Two : forall k,
    (forall mrs p d, 0 < d -> 0 <= shr_m mrs -> located mrs p d ->
       located (SpecFloat.iter_pos shr_1 k mrs) p (2 ^ Zpos k * d)
       /\ shr_m (SpecFloat.iter_pos shr_1 k mrs) = shr_m mrs / 2 ^ Zpos k) ->
    forall mrs p d, 0 < d -> 0 <= shr_m mrs -> located mrs p d ->
       located (SpecFloat.iter_pos shr_1 k (SpecFloat.iter_pos shr_1 k mrs)) p
         (2 ^ (Zpos k + Zpos k) * d)
       /\ shr_m (SpecFloat.iter_pos shr_1 k (SpecFloat.iter_pos shr_1 k mrs))
          = shr_m mrs / 2 ^ (Zpos k + Zpos k)).
  { intros k IH.
    apply (Comp (SpecFloat.iter_pos shr_1 k) (SpecFloat.iter_pos shr_1 k)
             (Zpos k) (Zpos k) ltac:(lia) ltac:(lia) IH IH). }
  induction n as [n IH|n IH|]; cbn [SpecFloat.iter_pos]; cbv zeta in *.
  - replace (Z.pos n~1) with (1 + (Z.pos n + Z.pos n)) by lia.
    apply (Comp shr_1
             (fun x => SpecFloat.iter_pos shr_1 n (SpecFloat.iter_pos shr_1 n x))
             1 (Zpos n + Zpos n) ltac:(lia) ltac:(lia) Step (Two n IH)).
  - replace (Z.pos n~0) with (Z.pos n + Z.pos n) by lia.
    apply (Two n IH).
  - apply Step.
Qed.

Lemma shr_m_of_loc m l : shr_m (shr_record_of_loc m l) = m.
Proof. destruct l as [|[]]; reflexivity. Qed.

Lemma located_new_location q b r :
  0 < b -> 0 <= r < b ->
  located (shr_record_of_loc q (new_location b r)) (q * b + r) b.
Proof.
  intros Hb Hr. unfold new_location, new_location_even, new_location_odd, located.
  destruct (Z.even b) eqn:Eb.
  - destruct (Z.eqb_spec r 0) as [->|Hz];
      [cbn [shr_record_of_loc shr_m shr_r shr_s]; lia|].
    destruct (Z.compare_spec (2 * r) b);
      cbn [shr_record_of_loc shr_m shr_r shr_s]; nia.
  - assert (Ho : Z.odd b = true) by (rewrite <- Z.negb_even, Eb; reflexivity).
    apply Z.odd_spec in Ho as [k Hk].
    destruct (Z.eqb_spec r 0) as [->|Hz];
      [cbn [shr_record_of_loc shr_m shr_r shr_s]; lia|].
    destruct (Z.compare_spec (2 * r + 1) b);
      cbn [shr_record_of_loc shr_m shr_r shr_s]; nia.
Qed.

Lemma located_round mrs p d :
  0 < d -> located mrs p d ->
  let m := round_nearest_even (shr_m mrs) (loc_of_shr_record mrs) in
  2 * Z.abs (m * d - p) <= d /\ (m = shr_m mrs \/ m = shr_m mrs + 1).
Proof.
  intros Hd. unfold located.
  destruct mrs as [m [|] [|]]; cbn [shr_m shr_r shr_s loc_of_shr_record round_nearest_even];
    intros H; try (split; [nia|auto]).
  destruct (Z.even m); split; auto; nia.
Qed.

(** Shifting by what the format asks for. *)
Lemma shr_fexp_located m e l p d :
  0 <= m -> 0 < d -> located (shr_record_of_loc m l) p d ->
  exists N,
    N = Z.max 0 (fexp prec emax (Zdigits2 m + e) - e)
    /\ snd (shr_fexp prec emax m e l) = e + N
    /\ located (fst (shr_fexp prec emax m e l)) p (2 ^ N * d)
    /\ shr_m (fst (shr_fexp prec emax m e l)) = m / 2 ^ N.
Proof.
  intros Hm Hd Hl. unfold shr_fexp, shr.
  destruct (fexp prec emax (Zdigits2 m + e) - e) as [|n|n] eqn:En.
  - exists 0. cbn [fst snd]. rewrite shr_m_of_loc, Z.div_1_r. 
    rewrite Z.pow_0_r, Z.mul_1_l. repeat split; try lia. exact Hl.
  - exists (Zpos n). cbn [fst snd].
    destruct (iter_shr_1 n (shr_record_of_loc m l) p d Hd) as [L M];
      [rewrite shr_m_of_loc; exact Hm|exact Hl|].
    rewrite shr_m_of_loc in M. repeat split; try lia; assumption.
  - exists 0. cbn [fst snd]. rewrite shr_m_of_loc, Z.div_1_r.
    rewrite Z.pow_0_r, Z.mul_1_l. repeat split; try lia. exact Hl.
Qed.

Lemma binary_round_aux_nearest sx q e l p d :
  0 <= q -> 0 < d -> located (shr_record_of_loc q l) p d ->
  e <= fexp prec emax (Zdigits2 q + e) ->
  exists m N,
    0 <= N /\ 0 <= m
    /\ fexp prec emax (Zdigits2 m + (e + N)) = e + N
    /\ 2 * Z.abs (m * 2 ^ N * d - p) <= 2 ^ N * d
    /\ binary_round_aux prec emax sx q e l
       = match m with
         | Z0 => S754_zero sx
         | Zpos m' =>
             if e + N <=? emax - prec then S754_finite sx m' (e + N)
             else S754_infinity sx
         | Zneg _ => S754_nan
         end.
Proof.
  intros Hq Hd Hl Hfe. unfold binary_round_aux.
  destruct (shr_fexp_located q e l p d Hq Hd Hl) as (N1 & HN1 & He1 & L1 & M1).
  destruct (shr_fexp prec emax q e l) as [mrs1 e1]. cbn [fst snd] in *.
  assert (HN1' : N1 = fexp prec emax (Zdigits2 q + e) - e) by lia.
  assert (P1 : 0 < 2 ^ N1) by (apply Z.pow_pos_nonneg; lia).
  set (m1 := shr_m mrs1) in *.
  assert (Hm1 : 0 <= m1) by (rewrite M1; apply Z.div_pos; lia).
  assert (C1 : fexp prec emax (Zdigits2 m1 + e1) = e1).
  { destruct (Z_lt_le_dec N1 (Zdigits2 q)) as [Hlt|Hge].
    - assert (0 < q) by (destruct q; cbn in Hlt; lia).
      rewrite M1, Zdigits2_div_pow by lia.
      replace (Zdigits2 q - N1 + e1) with (Zdigits2 q + e) by lia. lia.
    - rewrite M1, (Zdigits2_div_pow_zero q N1) by lia.
      cbn [Zdigits2]. rewrite fexp_eq in *. lia. }
  destruct (located_round mrs1 p (2 ^ N1 * d) ltac:(nia) L1) as [Hr Hmr].
  fold m1 in Hr, Hmr.
  set (mr := round_nearest_even m1 (loc_of_shr_record mrs1)) in *.
  clearbody mr. clearbody m1.
  assert (Hmr0 : 0 <= mr) by lia.
  destruct (shr_fexp_located mr e1 loc_Exact mr 1 Hmr0 ltac:(lia))
    as (N2 & HN2 & He2 & _ & M2).
  { unfold located. cbn. lia. }
  destruct (shr_fexp prec emax mr e1 loc_Exact) as [mrs2 e2]. cbn [fst snd] in *.
  assert (Hcase : (N2 = 0 /\ fexp prec emax (Zdigits2 mr + e1) = e1)
                  \/ (N2 = 1 /\ mr = 2 ^ 53)).
  { destruct Hmr as [->| ->]; [left; lia|].
    destruct (Zdigits2_succ m1 Hm1) as [E|[E Hpow]]; rewrite E in *;
      [left; lia|].
    rewrite fexp_eq in *.
    destruct (Z.eq_dec N2 0); [left; lia|]. right.
    assert (Zdigits2 m1 = 53) by lia. split; [lia|]. rewrite Hpow. congruence. }
  exists (shr_m mrs2), (N1 + N2).
  assert (Hm2 : shr_m mrs2 * 2 ^ N2 = mr
                /\ fexp prec emax (Zdigits2 (shr_m mrs2) + (e1 + N2)) = e1 + N2).
  { destruct Hcase as [[-> Hc]|[-> ->]].
    - rewrite M2, Z.pow_0_r, Z.div_1_r. split; [lia|].
      rewrite Z.add_0_r. exact Hc.
    - rewrite M2. change (2 ^ 53 / 2 ^ 1) with (2 ^ 52).
      split; [reflexivity|]. change (Zdigits2 (2 ^ 52)) with 53.
      rewrite fexp_eq in *. lia. }
  destruct Hm2 as [Hval Hcan].
  assert (P2 : 0 < 2 ^ N2) by (apply Z.pow_pos_nonneg; lia).
  assert (0 <= shr_m mrs2) by (rewrite M2; apply Z.div_pos; lia).
  repeat split.
  - lia.
  - assumption.
  - replace (e + (N1 + N2)) with (e1 + N2) by lia. exact Hcan.
  - rewrite Z.pow_add_r by lia.
    replace (shr_m mrs2 * (2 ^ N1 * 2 ^ N2) * d) with (mr * (2 ^ N1 * d))
      by (rewrite <- Hval; ring).
    nia.
  - replace (e + (N1 + N2)) with e2 by lia. reflexivity.
Qed.

(** The quotient and the remainder that [SFdiv] starts from. *)
Lemma SFdiv_core_located a b :
  0 < a -> 0 < b ->
  exists q s l,
    SFdiv_core_binary prec emax a 0 b 0 = (q, - s, l)
    /\ 0 <= s <= 1074 /\ 0 <= q
    /\ located (shr_record_of_loc q l) (a * 2 ^ s) b
    /\ - s <= fexp prec emax (Zdigits2 q + - s).
Proof.
  intros Ha Hb. unfold SFdiv_core_binary.
  set (d1 := Zdigits2 a). set (d2 := Zdigits2 b).
  set (e' := Z.min (fexp prec emax (d1 + 0 - (d2 + 0))) (0 - 0)).
  assert (He' : -1074 <= e' <= 0 /\ e' <= fexp prec emax (d1 - d2)).
  { unfold e'. rewrite Z.add_0_r, Z.add_0_r, fexp_eq. lia. }
  destruct He' as [He' Hfe].
  set (s := 0 - 0 - e').
  assert (Hs : 0 <= s <= 1074) by (unfold s; lia).
  set (m' := match s with Z0 => a | Zpos _ => Z.shiftl a s | Zneg _ => 0 end).
  assert (Hm' : m' = a * 2 ^ s).
  { unfold m'. destruct s as [|n|n] eqn:Es; [lia| |lia].
    apply Z.shiftl_mul_pow2. lia. }
  pose proof (Z_div_mod m' b ltac:(lia)) as Hdiv.
  destruct (Z.div_eucl m' b) as [q r]. destruct Hdiv as [Hqr Hr].
  assert (Ps : 0 < 2 ^ s) by (apply Z.pow_pos_nonneg; lia).
  assert (Hq : 0 <= q) by nia.
  exists q, s, (new_location b r).
  replace e' with (- s) by (unfold s; lia).
  repeat split; try lia.
  - rewrite <- Hm', Hqr. replace (b * q + r) with (q * b + r) by ring.
    apply located_new_location; lia.
  - (* the quotient has at least [d1 - d2 + s] digits *)
    assert (Hdig : d1 - d2 + s <= Zdigits2 q).
    { pose proof (Zdigits2_nonneg q).
      destruct (Z_le_gt_dec (d1 - d2 + s) 0) as [|Hpos]; [lia|].
      destruct (Zdigits2_spec a Ha) as [La _].
      destruct (Zdigits2_spec b Hb) as [_ Ub].
      fold d1 in La. fold d2 in Ub.
      pose proof (Zdigits2_pos a Ha). pose proof (Zdigits2_pos b Hb).
      fold d1 in H0. fold d2 in H1.
      set (t := d1 - d2 + s - 1) in *.
      assert (Et : 2 ^ (d1 - 1) * 2 ^ s = 2 ^ t * 2 ^ d2).
      { rewrite <- !Z.pow_add_r by lia. f_equal. lia. }
      assert (Pt : 0 < 2 ^ t) by (apply Z.pow_pos_nonneg; lia).
      assert (Hqt : 2 ^ t <= q) by nia.
      assert (0 < q) by lia.
      destruct (Zdigits2_spec q ltac:(lia)) as [_ Uq].
      assert (t < Zdigits2 q) by (apply (Z.pow_lt_mono_r_iff 2); lia).
      lia. }
    rewrite fexp_eq in *. lia.
Qed.

(** [int / int] gives the quotient rounded to binary64. *)
Lemma truediv_rounded a b :
  0 <= a -> 0 < b -> rounded_quotient a b (truediv a b).
Proof.
  intros Ha Hb. unfold truediv.
  destruct (Z.eqb_spec b 0); [lia|].
  destruct (Z.eq_dec a 0) as [->|Hnz].
  { destruct b as [|pb|pb]; try lia.
    cbn [float_of_int_exact SFdiv xorb rounded_quotient].
    rewrite Z.mul_0_r, Z.mul_0_l. lia. }
  destruct (SFdiv_core_located a b ltac:(lia) Hb)
    as (q & s & l & Hcore & Hs & Hq & Hloc & Hfe).
  destruct (binary_round_aux_nearest false q (- s) l (a * 2 ^ s) b Hq Hb
              Hloc Hfe) as (m & N & HN & Hm & Hcan & Herr & Hres).
  destruct a as [|pa|pa]; try lia. destruct b as [|pb|pb]; try lia.
  cbn [float_of_int_exact SFdiv xorb]. rewrite Hcore, Hres.
  assert (Ps : 0 < 2 ^ s) by (apply Z.pow_pos_nonneg; lia).
  assert (PN : 0 < 2 ^ N) by (apply Z.pow_pos_nonneg; lia).
  destruct m as [|pm|pm]; [| |lia].
  - (* the quotient is rounded to zero *)
    cbn [rounded_quotient Zdigits2] in *. rewrite fexp_eq in Hcan.
    assert (N = 0 /\ s = 1074) as [-> ->] by lia.
    change (2 ^ 0) with 1 in Herr.
    assert (0 < 2 ^ 1074) by (apply Z.pow_pos_nonneg; lia).
    generalize dependent (2 ^ 1074). intros. nia.
  - destruct (Z.leb_spec (- s + N) (emax - prec)) as [Hle|Hgt];
      cbn [rounded_quotient].
    + split.
      * unfold bounded, canonical_mantissa.
        cbn [Zdigits2] in Hcan. rewrite Hcan, Z.eqb_refl.
        apply andb_true_intro. split; [reflexivity|apply Z.leb_le, Hle].
      * assert (Pk : 0 < 2 ^ (1074 - s)) by (apply Z.pow_pos_nonneg; lia).
        replace (2 ^ (- s + N + 1074)) with (2 ^ N * 2 ^ (1074 - s))
          by (rewrite <- Z.pow_add_r by lia; f_equal; lia).
        replace (2 ^ 1074) with (2 ^ s * 2 ^ (1074 - s))
          by (rewrite <- Z.pow_add_r by lia; f_equal; lia).
        replace (Z.pos pm * (2 ^ N * 2 ^ (1074 - s)) * Z.pos pb
                 - Z.pos pa * (2 ^ s * 2 ^ (1074 - s)))
          with ((Z.pos pm * 2 ^ N * Z.pos pb - Z.pos pa * 2 ^ s)
                * 2 ^ (1074 - s)) by ring.
        rewrite Z.abs_mul, (Z.abs_eq (2 ^ (1074 - s))) by lia.
        nia.
    + (* overflow: the mantissa has 53 bits and the exponent is too large *)
      unfold emax, prec in Hgt.
      rewrite fexp_eq in Hcan.
      assert (Hd : Zdigits2 (Z.pos pm) = 53) by lia.
      destruct (Zdigits2_spec (Z.pos pm) ltac:(lia)) as [Lm _].
      rewrite Hd in Lm. change (2 ^ (53 - 1)) with (2 ^ 52) in Lm.
      assert (HNs : 2 ^ 972 * 2 ^ s <= 2 ^ N).
      { rewrite <- Z.pow_add_r by lia. apply Z.pow_le_mono_r; lia. }
      assert (E53 : 2 ^ 53 = 2 * 2 ^ 52) by reflexivity.
      assert (E972 : 2 ^ 972 = 2 * 2 ^ 971) by reflexivity.
      assert (P971 : 0 < 2 ^ 971) by (apply Z.pow_pos_nonneg; lia).
      assert (P52 : 0 < 2 ^ 52) by (apply Z.pow_pos_nonneg; lia).
      rewrite E53.
      generalize dependent (2 ^ 971). generalize dependent (2 ^ 52).
      generalize dependent (2 ^ 972).
      generalize dependent (2 ^ N). generalize dependent (2 ^ s).
      intros. nia.
Qed.

Section Ether.
Variable lim : nat.

(** C8.  [wei_to_ether] divides the integer value of its argument by
    [10 ** 18]: when [hex_to_int] reads the non-negative integer [n] from
    the string, the result is [n / 10^18] rounded to binary64 (a valid
    binary64 number within half a unit in the last place of the exact
    quotient, [0.0] when the quotient is at most half the least positive
    float, [OverflowError] when it reaches the greatest float); when
    [hex_to_int] raises, so does [wei_to_ether].  On
    ["0xde0b6b3a7640000"], which is [10 ** 18] wei, the result is the float
    [1.0]. *)
Theorem wei_to_ether_quotient wei n :
  hex_to_int lim wei = Returned n -> 0 <= n ->
  rounded_quotient n (10 ^ 18) (wei_to_ether lim wei)
  /\ (forall s e, hex_to_int lim s = Raised e -> wei_to_ether lim s = Raised e)
  /\ hex_to_int lim "0xde0b6b3a7640000" = Returned (10 ^ 18)
  /\ wei_to_ether lim "0xde0b6b3a7640000" = Returned float_one
  /\ float_one = S754_finite false (2 ^ 52) (-52).
Proof.
  intros Hn Hnn. split; [|split; [|repeat split]].
  - unfold wei_to_ether. rewrite Hn. cbn [bind].
    apply truediv_rounded; [exact Hnn|lia].
  - intros s e He. unfold wei_to_ether. rewrite He. reflexivity.
Qed.
End Ether.

(** C8 at one wei: the float nearest to [1e-18]. *)
Lemma wei_to_ether_quotient_witness :
  rounded_quotient 1 (10 ^ 18)
    (Returned (S754_finite false 5192296858534828 (-112)))
  /\ wei_to_ether 4300 "0x1"
     = Returned (S754_finite false 5192296858534828 (-112)).
Proof.
  split; [|reflexivity].
  apply (wei_to_ether_quotient 4300 "0x1" 1); [reflexivity|lia].
Defined.

(** * Properties of the demonstrations *)

Import Demo.

Section DemoLogic.
Variable net : Z -> post_result.

Lemma posts_ret {A} (a : A) : posts_at_most 0 (ret a).
Proof. intros st H. cbn. split; [exact H|lia]. Qed.

Lemma posts_eval {A} (o : outcome A) : posts_at_most 0 (eval o).
Proof. intros st H. cbn. split; [exact H|lia]. Qed.

Lemma posts_print tty t f : posts_at_most 0 (print tty t f).
Proof.
  intros st H. unfold print.
  destruct (first_error (format_error tty) f); [cbn; split; [exact H|lia]|].
  destruct (first_error (encode_error tty) f); cbn; split; exact H || lia.
Qed.

Lemma posts_mono {A} n m (p : prog A) :
  posts_at_most n p -> (n <= m)%nat -> posts_at_most m p.
Proof. intros Hp Hle st H. destruct (Hp st H). split; [assumption|lia]. Qed.

Lemma posts_bind {A B} n m (p : prog A) (k : A -> prog B) :
  posts_at_most n p -> (forall a, posts_at_most m (k a)) ->
  posts_at_most (n + m) (pbind p k).
Proof.
  intros Hp Hk st H. destruct (Hp st H) as [H1 L1]. unfold pbind.
  destruct (p st) as [st1 [a|e]]; cbn [fst] in *.
  - destruct (Hk a st1 H1) as [H2 L2]. split; [assumption|lia].
  - split; [assumption|lia].
Qed.

Lemma posts_if {A} n m (b : bool) (p q : prog A) :
  posts_at_most n p -> posts_at_most m q ->
  posts_at_most (Nat.max n m) (if b then p else q).
Proof.
  intros Hp Hq. destruct b; [apply (posts_mono n)|apply (posts_mono m)];
    assumption || lia.
Qed.

Lemma posts_when n (b : bool) (p : prog unit) :
  posts_at_most n p -> posts_at_most n (when b p).
Proof.
  intros Hp. unfold when. destruct b; [exact Hp|].
  apply (posts_mono 0); [apply posts_ret|lia].
Qed.

(** A wrapper call posts one request; it keeps the state in order when its
    remote procedure is a reading one. *)
Lemma posts_call f m ps :
  (forall self n, f self n = returning_result (_make_request self m ps n)) ->
  read_only m = true ->
  posts_at_most 1 (call net f).
Proof.
  intros Hf Hm st (Hurl & Hid & Hall & Hseq).
  unfold call, in_order. rewrite Hf.
  cbn [fst client wire self_after posted returning_result _make_request
       rpc_url request_id].
  rewrite !length_app. cbn [length]. repeat split.
  - exact Hurl.
  - lia.
  - apply Forall_app. split; [exact Hall|].
    constructor; [|constructor]. split; [exact Hm|exact Hurl].
  - rewrite fmap_app, Hseq. cbn [fmap list_fmap sent_number json id].
    rewrite Hid. replace (Z.of_nat (length (wire st) + 1))
      with (Z.of_nat (length (wire st)) + 1) by lia.
    rewrite seqZ_app by lia. cbn. reflexivity.
  - lia.
Qed.

(** A demonstration starts with a banner and a new client; from a state
    with nothing on the wire this gives a state in order. *)
Lemma posts_after_new_client {A} n tty t (rest : prog A) st :
  posts_at_most n rest -> wire st = [] ->
  let st' :=
    (pbind (print tty t []) (fun _ => pbind new_client (fun _ => rest)) st).1
  in in_order st' /\ (length (wire st') <= n)%nat.
Proof.
  intros Hrest Hw. unfold pbind at 1 2, print, new_client.
  cbn [first_error fst]. rewrite Hw.
  match goal with |- context [rest ?s] => destruct (Hrest s) as [H L] end.
  - repeat split; try reflexivity. constructor.
  - split; [exact H|exact L].
Qed.
End DemoLogic.

Ltac posts_step :=
  first
    [ apply posts_print
    | apply posts_eval
    | apply posts_ret
    | eapply posts_call; [intros; reflexivity|reflexivity]
    | eapply posts_bind; [|intros]
    | eapply posts_when
    | eapply posts_if ].

Section Demonstrations.
Variable lim : nat.
Variable dict_slice_error : exn.
Variable tty : terminal.
Variable net : Z -> post_result.

(** Whatever the node answers, and whether the run ends normally or with
    an exception, [demonstrate_basic_operations] posts at most ten
    requests, all to [http://localhost:8545], numbered 1, 2, ... in the
    order they are posted, and none of them is [eth_sendRawTransaction]. *)
Theorem basic_operations_requests :
  let st :=
    (demonstrate_basic_operations lim dict_slice_error tty net start).1 in
  (length (wire st) <= 10)%nat
  /\ Forall harmless (wire st)
  /\ sent_number <$> wire st = seqZ 1 (Z.of_nat (length (wire st))).
Proof.
  unfold demonstrate_basic_operations.
  match goal with
  | |- context [pbind (print ?y ?t []) (fun _ => pbind new_client (fun _ => ?rest))] =>
      destruct (posts_after_new_client 10 y t rest start)
        as [(_ & _ & Hall & Hseq) Hlen]
  end.
  - eapply posts_mono; [repeat posts_step|cbn; lia].
  - reflexivity.
  - split; [exact Hlen|split; [exact Hall|exact Hseq]].
Qed.

(** The same for [demonstrate_contract_interaction], with at most two
    requests. *)
Theorem contract_interaction_requests :
  let st := (demonstrate_contract_interaction lim tty net start).1 in
  (length (wire st) <= 2)%nat
  /\ Forall harmless (wire st)
  /\ sent_number <$> wire st = seqZ 1 (Z.of_nat (length (wire st))).
Proof.
  unfold demonstrate_contract_interaction.
  match goal with
  | |- context [pbind (print ?y ?t []) (fun _ => pbind new_client (fun _ => ?rest))] =>
      destruct (posts_after_new_client 2 y t rest start)
        as [(_ & _ & Hall & Hseq) Hlen]
  end.
  - eapply posts_mono; [repeat posts_step|cbn; lia].
  - reflexivity.
  - split; [exact Hlen|split; [exact Hall|exact Hseq]].
Qed.
End Demonstrations.

Section Runs.
Variable lim : nat.
Variable dict_slice_error : exn.
Variable tty : terminal.

(** A line without fields is always printed. *)
Lemma run_print {A} t (k : unit -> prog A) st :
  pbind (print tty t []) k st
  = k tt {| client := client st; wire := wire st;
            stdout := stdout st ++ [Line t []] |}.
Proof. reflexivity. Qed.

Lemma run_print_fields {A} t f (k : unit -> prog A) st :
  printable tty f = true ->
  pbind (print tty t f) k st
  = k tt {| client := client st; wire := wire st;
            stdout := stdout st ++ [Line t f] |}.
Proof.
  unfold printable, pbind, print. intros H.
  destruct (first_error (format_error tty) f); [discriminate H|].
  destruct (first_error (encode_error tty) f); [discriminate H|].
  reflexivity.
Qed.

Lemma run_new_client {A} (k : unit -> prog A) st :
  pbind new_client k st
  = k tt {| client := __init__ None; wire := wire st; stdout := stdout st |}.
Proof. reflexivity. Qed.

Lemma run_call {A} net f (k : pyval -> prog A) c w o :
  pbind (call net f) k {| client := c; wire := w; stdout := o |}
  = let e := f c (net (request_id c)) in
    let st := {| client := self_after e; wire := w ++ [posted e];
                 stdout := o |} in
    match result e with
    | Returned a => k a st
    | Raised x => (st, Raised x)
    end.
Proof. unfold pbind, call. cbn. destruct (result _); reflexivity. Qed.

Lemma basic_operations_exit net v :
  result (get_client_version (__init__ None) (net 1)) = Returned v ->
  truthy v = false ->
  demonstrate_basic_operations lim dict_slice_error tty net start
  = ({| client := {| rpc_url := "http://localhost:8545"; request_id := 2 |};
        wire := [ {| url := "http://localhost:8545";
                     json := {| jsonrpc := "2.0";
                                method := "web3_clientVersion";
                                params := [];
                                id := 1 |};
                     headers := [("Content-Type", "application/json")];
                     timeout := 30 |} ];
        stdout := [ Line ("=== Deo Blockchain Web3 API Demonstration ==="
                          +:+ nl) [];
                    Line "1. Testing connection..." [];
                    Line "   Failed to connect to Deo node" [] ] |},
     Returned tt).
Proof.
  intros Hv Hfalse. unfold demonstrate_basic_operations, start.
  rewrite run_print, run_new_client, run_print, run_call.
  cbn [client wire stdout app]. cbv zeta.
  change (request_id (__init__ None)) with 1.
  rewrite Hv, Hfalse. reflexivity.
Qed.

(** When the first answer of the node gives no version (the wrapper
    returns [None] or another false value: the node is unreachable, it
    answers with an error, or the version is empty),
    [demonstrate_basic_operations] stops there: it has posted the one
    request [web3_clientVersion], printed that it failed to connect, and
    returns normally. *)
Theorem basic_operations_early_exit net v :
  result (get_client_version (__init__ None) (net 1)) = Returned v ->
  truthy v = false ->
  demonstrate_basic_operations lim dict_slice_error tty net start
  = ({| client := {| rpc_url := "http://localhost:8545"; request_id := 2 |};
        wire := [ {| url := "http://localhost:8545";
                     json := {| jsonrpc := "2.0";
                                method := "web3_clientVersion";
                                params := [];
                                id := 1 |};
                     headers := [("Content-Type", "application/json")];
                     timeout := 30 |} ];
        stdout := [ Line ("=== Deo Blockchain Web3 API Demonstration ==="
                          +:+ nl) [];
                    Line "1. Testing connection..." [];
                    Line "   Failed to connect to Deo node" [] ] |},
     Returned tt).
Proof. apply basic_operations_exit. Qed.

Lemma transport_failure_none self m ps n cause :
  transport_failure n cause ->
  result (returning_result (_make_request self m ps n)) = Returned PyNone.
Proof. intros H. destruct H; reflexivity. Qed.

Lemma run_print_rejected {A} t f (k : unit -> prog A) st e :
  first_error (format_error tty) f = None ->
  first_error (encode_error tty) f = Some e ->
  pbind (print tty t f) k st = (st, Raised e).
Proof. unfold pbind, print. intros -> ->. reflexivity. Qed.

(** When the node answers [eth_estimateGas] with a result that is true but
    not a string (a JSON number, say, instead of a hex string), and the
    line that shows a true result of [eth_call] could be printed,
    [demonstrate_contract_interaction] ends with [AttributeError]: both
    requests have been posted, and the last line printed is the heading of
    the gas estimate. *)
Theorem contract_interaction_bad_gas net r g :
  result (call_contract (__init__ None) (net 1) call_object None)
  = Returned r ->
  printable tty (if truthy r then [FVal r] else []) = true ->
  result (estimate_gas
            {| rpc_url := "http://localhost:8545"; request_id := 2 |}
            (net 2) call_object)
  = Returned g ->
  truthy g = true -> is_str g = false ->
  let run := demonstrate_contract_interaction lim tty net start in
  run.2 = Raised (Builtin AttributeError)
  /\ sent_method <$> wire run.1 = ["eth_call"; "eth_estimateGas"]
  /\ last (stdout run.1) = Some (Line (nl +:+ "2. Estimating gas...") []).
Proof.
  intros Hr Hprint Hg Htrue Hstr.
  unfold demonstrate_contract_interaction, start.
  rewrite run_print, run_new_client, run_print, run_call.
  cbn [client wire stdout app]. cbv zeta.
  change (request_id (__init__ None)) with 1. rewrite Hr.
  change (self_after (call_contract (__init__ None) (net 1) call_object None))
    with {| rpc_url := "http://localhost:8545"; request_id := 2 |}.
  assert (Hbad : hex_to_int_of lim g = Raised (Builtin AttributeError))
    by (destruct g; try reflexivity; discriminate Hstr).
  destruct (truthy r);
    [rewrite (run_print_fields _ _ _ _ Hprint)|rewrite run_print];
    rewrite run_print, run_call;
    cbn [client wire stdout app]; cbv zeta;
    change (request_id
              {| rpc_url := "http://localhost:8545"; request_id := 2 |})
      with 2;
    rewrite Hg, Htrue; unfold pbind, when, eval;
    rewrite Hbad; cbn [fst snd wire stdout];
    repeat split.
Qed.

(** When the line that shows a true result of [eth_call] cannot be printed
    (the terminal rejects the value), the demonstration ends there with the
    exception of the terminal, and [eth_estimateGas] is never posted. *)
Lemma contract_interaction_unprintable net r e :
  result (call_contract (__init__ None) (net 1) call_object None)
  = Returned r ->
  truthy r = true ->
  first_error (format_error tty) [FVal r] = None ->
  first_error (encode_error tty) [FVal r] = Some e ->
  let run := demonstrate_contract_interaction lim tty net start in
  run.2 = Raised e /\ sent_method <$> wire run.1 = ["eth_call"].
Proof.
  intros Hr Htrue Hfmt Henc.
  unfold demonstrate_contract_interaction, start.
  rewrite run_print, run_new_client, run_print, run_call.
  cbn [client wire stdout app]. cbv zeta.
  change (request_id (__init__ None)) with 1. rewrite Hr, Htrue.
  rewrite (run_print_rejected _ _ _ _ _ Hfmt Henc).
  split; reflexivity.
Qed.

(** Against a node that cannot be reached (every request fails at the
    transport level) the whole script runs to its end without raising: it
    posts three requests (the version, then [eth_call] and
    [eth_estimateGas] from a second client, whose ids start again at 1)
    and prints the two failure messages. *)
Theorem main_unreachable net1 net2 :
  (forall i, exists cause, transport_failure (net1 i) cause) ->
  (forall i, exists cause, transport_failure (net2 i) cause) ->
  let run := main lim dict_slice_error tty net1 net2 start in
  run.2 = Returned tt
  /\ sent_method <$> wire run.1
     = ["web3_clientVersion"; "eth_call"; "eth_estimateGas"]
  /\ sent_number <$> wire run.1 = [1; 1; 2]
  /\ template <$> stdout run.1
     = [ "=== Deo Blockchain Web3 API Demonstration ===" +:+ nl;
         "1. Testing connection...";
         "   Failed to connect to Deo node";
         nl +:+ "=== Contract Interaction Demonstration ===" +:+ nl;
         "1. Calling contract function...";
         "   Contract call failed";
         nl +:+ "2. Estimating gas...";
         nl +:+ "=== Contract Interaction Complete ===" ].
Proof.
  intros H1 H2 run.
  destruct (H1 1) as [c1 F1]. destruct (H2 1) as [c2 F2].
  destruct (H2 2) as [c3 F3].
  assert (E : exists st,
    run = (st, Returned tt)
    /\ sent_method <$> wire st
       = ["web3_clientVersion"; "eth_call"; "eth_estimateGas"]
    /\ sent_number <$> wire st = [1; 1; 2]
    /\ template <$> stdout st
       = [ "=== Deo Blockchain Web3 API Demonstration ===" +:+ nl;
           "1. Testing connection...";
           "   Failed to connect to Deo node";
           nl +:+ "=== Contract Interaction Demonstration ===" +:+ nl;
           "1. Calling contract function...";
           "   Contract call failed";
           nl +:+ "2. Estimating gas...";
           nl +:+ "=== Contract Interaction Complete ===" ]);
    [|destruct E as (st & -> & E1 & E2 & E3); repeat split; assumption].
  unfold run, main. unfold pbind at 1.
  rewrite (basic_operations_exit net1 PyNone);
    [|apply (transport_failure_none _ _ _ _ c1 F1)|reflexivity].
  unfold demonstrate_contract_interaction.
  rewrite run_print, run_new_client, run_print, run_call.
  cbn [client wire stdout app]. cbv zeta.
  change (request_id (__init__ None)) with 1.
  change (result (call_contract (__init__ None) (net2 1) call_object None))
    with (result (returning_result
            (_make_request (__init__ None) "eth_call"
               (Some [call_object; PyStr "latest"]) (net2 1)))).
  rewrite (transport_failure_none _ _ _ _ c2 F2).
  change (truthy PyNone) with false. cbv iota.
  rewrite run_print, run_print, run_call.
  cbn [client wire stdout app]. cbv zeta.
  change (request_id (self_after
            (call_contract (__init__ None) (net2 1) call_object None)))
    with 2.
  change (result (estimate_gas ?c (net2 2) call_object))
    with (result (returning_result
            (_make_request c "eth_estimateGas" (Some [call_object])
               (net2 2)))).
  rewrite (transport_failure_none _ _ _ _ c3 F3).
  change (truthy PyNone) with false.
  eexists. split; [reflexivity|]. repeat split.
Qed.
End Runs.

(** ** Instances *)

Lemma hex_literal_value_witness :
  hex_to_int 4300 ("0x" +:+ "4D2") = Returned (numeral 16 "4D2").
Proof. apply (hex_literal_value 4300 "4D2"); [discriminate|reflexivity]. Defined.

Lemma decimal_literal_value_witness :
  hex_to_int 4300 "1234"
  = if too_many_digits 4300 10 (String.length "1234")
    then Raised (Builtin ValueError)
    else Returned (numeral 10 "1234").
Proof. apply (decimal_literal_value 4300 "1234"); [discriminate|reflexivity]. Defined.

Lemma hex_to_int_0x_nonneg_witness :
  hex_to_int 4300 "0xff" = Returned 255 /\ 0 <= 255.
Proof.
  split; [reflexivity|].
  apply (hex_to_int_0x_nonneg 4300 "0xff" 255); reflexivity.
Defined.

Lemma hex_to_int_underscores_witness :
  hex_to_int 4300 ("0x" +:+ "de" +:+ "_" +:+ "ad")
  = hex_to_int 4300 ("0x" +:+ "de" +:+ "ad")
  /\ hex_to_int 4300 ("0x" +:+ "de" +:+ "__" +:+ "ad")
     = Raised (Builtin ValueError)
  /\ hex_to_int 4300 ("0x" +:+ "de" +:+ "_") = Raised (Builtin ValueError).
Proof.
  apply (hex_to_int_underscores 4300 "de" "ad");
    [discriminate|discriminate|reflexivity|reflexivity].
Defined.

Lemma int_to_hex_injective_witness :
  int_to_hex (15 * 17) = int_to_hex 255 /\ 15 * 17 = 255.
Proof.
  split; [reflexivity|].
  apply (int_to_hex_injective (15 * 17) 255). reflexivity.
Defined.

Lemma canonical_hex_round_trip_witness :
  exists z, 0 <= z /\ hex_to_int 4300 "0x4d2" = Returned z
            /\ int_to_hex z = "0x4d2".
Proof. apply (canonical_hex_round_trip 4300 "0x4d2"). reflexivity. Defined.

Lemma int_to_hex_canonical_witness : canonical_hex (int_to_hex 1234) = true.
Proof. apply (int_to_hex_canonical 1234). lia. Defined.

Lemma basic_operations_early_exit_witness :
  exists st,
    demonstrate_basic_operations 4300 (Builtin TypeError) plain refusing start
    = (st, Returned tt)
    /\ length (wire st) = 1%nat.
Proof.
  eexists. split.
  - apply (basic_operations_early_exit 4300 (Builtin TypeError) plain
             refusing PyNone); reflexivity.
  - reflexivity.
Defined.

Lemma contract_interaction_bad_gas_witness :
  let run := demonstrate_contract_interaction 4300 plain numeric_gas start in
  run.2 = Raised (Builtin AttributeError)
  /\ sent_method <$> wire run.1 = ["eth_call"; "eth_estimateGas"]
  /\ last (stdout run.1) = Some (Line (nl +:+ "2. Estimating gas...") []).
Proof.
  apply (contract_interaction_bad_gas 4300 plain numeric_gas
           (PyStr "0x") (PyInt 21000)); vm_compute; reflexivity.
Defined.

Lemma main_unreachable_witness :
  (main 4300 (Builtin TypeError) plain refusing refusing start).2
  = Returned tt
  /\ sent_number <$> wire (main 4300 (Builtin TypeError) plain refusing
                             refusing start).1 = [1; 1; 2].
Proof.
  destruct (main_unreachable 4300 (Builtin TypeError) plain refusing refusing)
    as (Hout & _ & Hids & _).
  - intros i. exists "Connection refused". apply connection_refused.
  - intros i. exists "Connection refused". apply connection_refused.
  - split; [exact Hout|exact Hids].
Defined.
